(** * apifakturownia: a client of the Fakturownia invoicing REST API

    A shallow embedding of [apifakturownia/errors.py], [apifakturownia/models.py]
    and [apifakturownia/api_client.py], and the properties of the request
    dispatcher, of the document model and of the invoice endpoint.

    Python values are a finite tree type; dictionaries are finite maps with
    string keys.  Dictionaries handed to the dispatcher are mutable objects:
    they live in a store and are passed by reference, so that copying and
    in-place update are what they are in the source.  The HTTP session is a
    function from the request handed to [session.request] to what comes
    back; every request handed to it is appended to a log.  The encoding of
    a request on the wire, done inside the HTTP library, is not part of the
    development. *)

From Stdlib Require Import ZArith Ascii String List Bool.
From Stdlib Require Import Floats.SpecFloat.
From stdpp Require Import base option gmap strings list fin_maps pretty.

Set Warnings "-register-all".

Local Open Scope string_scope.
Local Open Scope Z_scope.
Local Open Scope list_scope.

(** ** Python values *)

(** [datetime.date]. *)
Record date := Date { year : Z; month : Z; day : Z }.

(** Python floats are IEEE 754 binary64 numbers, given by their
    specification ([spec_float]). *)
Inductive pyval :=
  | VNone
  | VBool (b : bool)
  | VInt (n : Z)
  | VFloat (f : spec_float)
  | VStr (s : string)
  | VDate (d : date)
  | VList (l : list pyval)
  | VDict (m : gmap string pyval).

Definition dict_truthy (m : gmap string pyval) : bool :=
  negb (bool_decide (size m = 0%nat)).

Definition str_truthy (s : string) : bool :=
  match s with EmptyString => false | String _ _ => true end.

(** Truth value of an object, as [if x], [not x] and [x or y] test it. *)
Definition truthy (v : pyval) : bool :=
  match v with
  | VNone => false
  | VBool b => b
  | VInt n => negb (n =? 0)
  | VFloat (S754_zero _) => false
  | VFloat _ => true
  | VStr s => str_truthy s
  | VDate _ => true
  | VList l => match l with [] => false | _ :: _ => true end
  | VDict m => dict_truthy m
  end.

(** [x or y] *)
Definition py_or (x y : pyval) : pyval := if truthy x then x else y.

(** [x in l] for a list of strings. *)
Definition str_in (x : string) (l : list string) : bool :=
  existsb (String.eqb x) l.

(** ** errors.py *)

(** The exception classes: [FakturowniaAPIException] and its four subclasses,
    which inherit its constructor. *)
Inductive error_class :=
  | FakturowniaAPIException
  | AuthenticationError
  | ValidationError
  | ResourceNotFoundError
  | ServerError.

Record api_error := ApiError {
  err_class : error_class;
  message : string;
  status_code_of : option Z;
  details : pyval
}.

(** [__init__(self, message, status_code=None, details=None)]:
    [self.details = details or {}]. *)
Definition error_init (cls : error_class) (message : string)
    (status_code : option Z) (details : pyval) : api_error :=
  {| err_class := cls;
     message := message;
     status_code_of := status_code;
     details := py_or details (VDict ∅) |}.

(** What a call can raise: an exception of the taxonomy, or one of the
    exceptions of Python and of the libraries that the code lets through. *)
Inductive exn :=
  | Api (e : api_error)
  | JSONDecodeError
  | TypeError (msg : string)
  | PydanticValidationError (field : string) (msg : string).

(** ** The store, the session and the monad of client code *)

Definition loc := positive.

(** The arguments of one [session.request(method, url, params=, json=,
    timeout=)] call, with the contents of the two dictionaries at the time
    of the call. *)
Record request := Request {
  req_method : string;
  req_url : string;
  req_params : gmap string pyval;
  req_json : gmap string pyval;
  req_timeout : Z
}.

(** A [requests.Response]: [json] is what [response.json()] returns, [None]
    when it raises [JSONDecodeError]. *)
Record response := Response {
  status_code : Z;
  content : string;
  text : string;
  json : option pyval
}.

(** [session.request] returns a response or raises a
    [requests.exceptions.RequestException] (with its text). *)
Inductive transport :=
  | Responded (r : response)
  | RequestException (e : string).

Record world := World {
  heap : gmap loc (gmap string pyval);
  wire : list request
}.

Inductive outcome (A : Type) :=
  | Return (a : A)
  | Raise (e : exn).
Arguments Return {A} a.
Arguments Raise {A} e.

Definition M (A : Type) : Type := world -> outcome A * world.

Definition ret {A} (a : A) : M A := fun w => (Return a, w).

Definition raise {A} (e : exn) : M A := fun w => (Raise e, w).

Definition bind {A B} (m : M A) (k : A -> M B) : M B :=
  fun w =>
    match m w with
    | (Return a, w') => k a w'
    | (Raise e, w') => (Raise e, w')
    end.

Notation "x <- m ;; k" := (bind m (fun x => k))
  (at level 100, m at next level, right associativity).
Notation "m ;;; k" := (bind m (fun _ => k))
  (at level 100, right associativity).

(** A new dictionary object with the given contents. *)
Definition alloc (d : gmap string pyval) : M loc :=
  fun w =>
    let l := fresh (dom (heap w)) in
    (Return l, {| heap := <[l := d]> (heap w); wire := wire w |}).

(** The contents of a dictionary object.  References always resolve in
    Python; one that does not is read as the empty dictionary. *)
Definition load (l : loc) : M (gmap string pyval) :=
  fun w => (Return (default ∅ (heap w !! l)), w).

(** [d[k] = v] *)
Definition setitem (l : loc) (k : string) (v : pyval) : M unit :=
  fun w =>
    (Return tt,
     {| heap := <[l := <[k := v]> (default ∅ (heap w !! l))]> (heap w);
        wire := wire w |}).

(** ** models.py: constants *)

Definition DocumentKind : list string :=
  ["vat"; "proforma"; "correction"; "advance"; "final"; "cost"; "accounting_note"].

Definition VatRateLiteral : list string := ["np"; "zw"; "disabled"].

Definition VOID_STATUS : string := "anulowana".

(** Results of code that touches neither the store nor the session. *)
Definition obind {A B} (o : outcome A) (k : A -> outcome B) : outcome B :=
  match o with
  | Return a => k a
  | Raise e => Raise e
  end.

Notation "x <~ o ;; k" := (obind o (fun x => k))
  (at level 100, o at next level, right associativity).

Definition lift {A} (o : outcome A) : M A := fun w => (o, w).

(** *** Dates *)

Definition is_leap (y : Z) : bool :=
  ((y mod 4 =? 0) && negb (y mod 100 =? 0)) || (y mod 400 =? 0).

Definition days_in_month (y m : Z) : Z :=
  if m =? 2 then (if is_leap y then 29 else 28)
  else if (m =? 4) || (m =? 6) || (m =? 9) || (m =? 11) then 30
  else 31.

Definition date_valid (d : date) : bool :=
  (1 <=? year d) && (year d <=? 9999)
  && (1 <=? month d) && (month d <=? 12)
  && (1 <=? day d) && (day d <=? days_in_month (year d) (month d)).

Definition digit (n : Z) : ascii := ascii_of_nat (48 + Z.to_nat (n mod 10)).

Definition digit_value (a : ascii) : option Z :=
  let n := Z.of_nat (nat_of_ascii a) in
  if (48 <=? n) && (n <=? 57) then Some (n - 48) else None.

Definition is_dash (a : ascii) : bool := Ascii.eqb a "-"%char.

(** [date.isoformat()]: YYYY-MM-DD. *)
Definition isoformat (d : date) : string :=
  String (digit (year d / 1000)) (String (digit (year d / 100))
  (String (digit (year d / 10)) (String (digit (year d))
  (String "-"%char
  (String (digit (month d / 10)) (String (digit (month d))
  (String "-"%char
  (String (digit (day d / 10)) (String (digit (day d)) EmptyString))))))))).

(** A date from its YYYY-MM-DD string. *)
Definition fromisoformat (s : string) : option date :=
  match s with
  | String y1 (String y2 (String y3 (String y4 (String s1
    (String m1 (String m2 (String s2
    (String d1 (String d2 EmptyString))))))))) =>
      if is_dash s1 && is_dash s2 then
        a ← digit_value y1; b ← digit_value y2; c ← digit_value y3;
        e ← digit_value y4;
        f ← digit_value m1; g ← digit_value m2;
        h ← digit_value d1; i ← digit_value d2;
        (let d := {| year := 1000 * a + 100 * b + 10 * c + e;
                     month := 10 * f + g;
                     day := 10 * h + i |} in
         if date_valid d then Some d else None)
      else None
  | _ => None
  end.

(** *** Field types *)

(** [Union[int, float]] *)
Inductive number := NInt (n : Z) | NFloat (f : spec_float).

(** [Union[str, float]] *)
Inductive str_or_float := PStr (s : string) | PFloat (f : spec_float).

(** [VatRate = Union[int, float, str]] *)
Inductive VatRate := TaxInt (n : Z) | TaxFloat (f : spec_float) | TaxStr (s : string).

Definition of_number (q : number) : pyval :=
  match q with NInt n => VInt n | NFloat f => VFloat f end.

Definition of_str_or_float (p : str_or_float) : pyval :=
  match p with PStr s => VStr s | PFloat f => VFloat f end.

Definition of_VatRate (t : VatRate) : pyval :=
  match t with TaxInt n => VInt n | TaxFloat f => VFloat f | TaxStr s => VStr s end.

(** *** Field validation

    A value is accepted for a field when it has the annotated type, and for
    a date field also when it is the YYYY-MM-DD string in which JSON carries
    a date.  The other conversions of pydantic's lax mode (a numeric string
    for a number, an int for a float, a timestamp for a date) are not
    modelled, and no statement below rests on such a value being refused.
    Of the errors pydantic collects, the first one in field order is
    reported. *)

Definition as_str (v : pyval) : option string :=
  match v with VStr s => Some s | _ => None end.

Definition as_int (v : pyval) : option Z :=
  match v with VInt n => Some n | _ => None end.

Definition as_float (v : pyval) : option spec_float :=
  match v with VFloat f => Some f | _ => None end.

Definition as_date (v : pyval) : option date :=
  match v with VDate d => Some d | VStr s => fromisoformat s | _ => None end.

Definition as_number (v : pyval) : option number :=
  match v with
  | VInt n => Some (NInt n)
  | VFloat f => Some (NFloat f)
  | _ => None
  end.

Definition as_str_or_float (v : pyval) : option str_or_float :=
  match v with
  | VStr s => Some (PStr s)
  | VFloat f => Some (PFloat f)
  | _ => None
  end.

Definition as_VatRate (v : pyval) : option VatRate :=
  match v with
  | VInt n => Some (TaxInt n)
  | VFloat f => Some (TaxFloat f)
  | VStr s => Some (TaxStr s)
  | _ => None
  end.

(** [Literal[...]] of strings. *)
Definition as_literal (allowed : list string) (v : pyval) : option string :=
  match v with
  | VStr s => if str_in s allowed then Some s else None
  | _ => None
  end.

(** A list field: every element is validated. *)
Definition as_list {A} (f : pyval -> option A) (v : pyval) : option (list A) :=
  match v with VList l => mapM f l | _ => None end.

(** A required field, [name: T] or [Field(...)]. *)
Definition required {A} (f : pyval -> option A) (name : string)
    (kw : gmap string pyval) : outcome A :=
  match kw !! name with
  | None => Raise (PydanticValidationError name "missing")
  | Some v =>
      match f v with
      | Some a => Return a
      | None => Raise (PydanticValidationError name "type")
      end
  end.

(** An optional field with a default, [name: Optional[T] = dflt]. *)
Definition optional {A} (f : pyval -> option A) (dflt : option A)
    (name : string) (kw : gmap string pyval) : outcome (option A) :=
  match kw !! name with
  | None => Return dflt
  | Some VNone => Return None
  | Some v =>
      match f v with
      | Some a => Return (Some a)
      | None => Raise (PydanticValidationError name "type")
      end
  end.

(** A constraint on a validated field. *)
Definition constraint (ok : bool) (name msg : string) : outcome unit :=
  if ok then Return tt else Raise (PydanticValidationError name msg).

(** [gt=0] on a number; a NaN is not greater than 0. *)
Definition gt0 (q : number) : bool :=
  match q with
  | NInt n => 0 <? n
  | NFloat f => SFltb (S754_zero false) f
  end.

(** The number is at most 0. *)
Definition le0 (q : number) : bool :=
  match q with
  | NInt n => n <=? 0
  | NFloat f => SFleb f (S754_zero false)
  end.

(** The dictionary of a dump: the fields whose value is excluded are given
    as [None]. *)
Definition dump_dict (es : list (string * option pyval)) : gmap string pyval :=
  foldr (fun e m => match e.2 with Some v => <[e.1 := v]> m | None => m end)
        ∅ es.

(** 23.0 *)
Definition float_23 : spec_float := S754_finite false 6473924464345088 (-48).

(** *** CorrectionAttributesDTO *)

Module CorrectionAttributesDTO.

Record t := mk {
  name : option string;
  quantity : option number;
  total_price_gross : option str_or_float;
  tax : option spec_float;
  kind : option string
}.

(** The constructor, called with the keyword arguments [kw]. *)
Definition init (kw : gmap string pyval) : outcome t :=
  name <~ optional as_str None "name" kw;;
  quantity <~ optional as_number None "quantity" kw;;
  total_price_gross <~ optional as_str_or_float None "total_price_gross" kw;;
  tax <~ optional as_float (Some float_23) "tax" kw;;
  kind <~ optional as_str (Some "correction_before") "kind" kw;;
  Return (mk name quantity total_price_gross tax kind).

(** [model_dump(by_alias=True, exclude_none=True)], which a parent model
    passes down; [kind] is declared with [exclude=True]. *)
Definition model_dump (c : t) : gmap string pyval :=
  dump_dict
    [("name", VStr <$> name c);
     ("quantity", of_number <$> quantity c);
     ("total_price_gross", of_str_or_float <$> total_price_gross c);
     ("tax", VFloat <$> tax c);
     ("kind", None)].

End CorrectionAttributesDTO.

(** Modelled from the spec: the type of the two correction fields of a
    position, written [Optional = None] in the source with the parameter of
    [Optional] missing; the spec has them as the optional before and after
    snapshots, which are [CorrectionAttributesDTO]s given as dictionaries. *)
Definition as_correction (v : pyval) : option CorrectionAttributesDTO.t :=
  match v with
  | VDict m =>
      match CorrectionAttributesDTO.init m with
      | Return c => Some c
      | Raise _ => None
      end
  | _ => None
  end.

(** *** InvoicePositionDTO *)

Module InvoicePositionDTO.

Record t := mk {
  id : option Z;
  name : string;
  quantity : number;
  total_price_gross : str_or_float;
  tax : VatRate;
  kind : option string;
  correction_before_attributes : option CorrectionAttributesDTO.t;
  correction_after_attributes : option CorrectionAttributesDTO.t
}.

(** The constructor, called with the keyword arguments [kw]; [quantity] is
    [Field(..., gt=0)], whatever the other fields are. *)
Definition init (kw : gmap string pyval) : outcome t :=
  id <~ optional as_int None "id" kw;;
  name <~ required as_str "name" kw;;
  quantity <~ required as_number "quantity" kw;;
  _ <~ constraint (gt0 quantity) "quantity" "greater_than";;
  total_price_gross <~ required as_str_or_float "total_price_gross" kw;;
  tax <~ required as_VatRate "tax" kw;;
  kind <~ optional as_str None "kind" kw;;
  before <~ optional as_correction None "correction_before_attributes" kw;;
  after <~ optional as_correction None "correction_after_attributes" kw;;
  Return (mk id name quantity total_price_gross tax kind before after).

Definition model_dump (p : t) : gmap string pyval :=
  dump_dict
    [("id", VInt <$> id p);
     ("name", Some (VStr (name p)));
     ("quantity", Some (of_number (quantity p)));
     ("total_price_gross", Some (of_str_or_float (total_price_gross p)));
     ("tax", Some (of_VatRate (tax p)));
     ("kind", VStr <$> kind p);
     ("correction_before_attributes",
      (fun c => VDict (CorrectionAttributesDTO.model_dump c))
        <$> correction_before_attributes p);
     ("correction_after_attributes",
      (fun c => VDict (CorrectionAttributesDTO.model_dump c))
        <$> correction_after_attributes p)].

(** The constraints of the class hold of the record. *)
Definition valid (p : t) : bool := gt0 (quantity p).

End InvoicePositionDTO.

Definition as_position (v : pyval) : option InvoicePositionDTO.t :=
  match v with
  | VDict m =>
      match InvoicePositionDTO.init m with
      | Return p => Some p
      | Raise _ => None
      end
  | _ => None
  end.

(** *** InvoiceDTO *)

Module InvoiceDTO.

Record t := mk {
  kind : string;
  sell_date : date;
  issue_date : date;
  seller_name : option string;
  seller_tax_no : option string;
  buyer_name : option string;
  buyer_tax_no : option string;
  buyer_email : option string;
  payment_to : option date;
  payment_method : option string;
  positions : list InvoicePositionDTO.t;
  correction_reason : option string;
  invoice_id : option Z;
  from_invoice_id : option Z;
  id : option Z;
  created_at : option string;
  updated_at : option string;
  invoice_url : option string
}.

(** The constructor, called with the keyword arguments [kw]; keys that are
    not fields are ignored
    ([extra = 'ignore']).  [positions] is
    [conlist(InvoicePositionDTO, min_length=1)]. *)
Definition init (kw : gmap string pyval) : outcome t :=
  kind <~ required (as_literal DocumentKind) "kind" kw;;
  sell_date <~ required as_date "sell_date" kw;;
  issue_date <~ required as_date "issue_date" kw;;
  seller_name <~ optional as_str None "seller_name" kw;;
  seller_tax_no <~ optional as_str None "seller_tax_no" kw;;
  buyer_name <~ optional as_str None "buyer_name" kw;;
  buyer_tax_no <~ optional as_str None "buyer_tax_no" kw;;
  buyer_email <~ optional as_str None "buyer_email" kw;;
  payment_to <~ optional as_date None "payment_to" kw;;
  payment_method <~ optional as_str (Some "Przelew") "payment_method" kw;;
  positions <~ required (as_list as_position) "positions" kw;;
  _ <~ constraint (1 <=? Z.of_nat (length positions)) "positions" "too_short";;
  correction_reason <~ optional as_str None "correction_reason" kw;;
  invoice_id <~ optional as_int None "invoice_id" kw;;
  from_invoice_id <~ optional as_int None "from_invoice_id" kw;;
  id <~ optional as_int None "id" kw;;
  created_at <~ optional as_str None "created_at" kw;;
  updated_at <~ optional as_str None "updated_at" kw;;
  invoice_url <~ optional as_str None "invoice_url" kw;;
  Return (mk kind sell_date issue_date seller_name seller_tax_no buyer_name
             buyer_tax_no buyer_email payment_to payment_method positions
             correction_reason invoice_id from_invoice_id id created_at
             updated_at invoice_url).

(** [InvoiceDTO.model_validate(obj)] *)
Definition model_validate (obj : pyval) : outcome t :=
  match obj with
  | VDict m => init m
  | _ => Raise (PydanticValidationError "" "model_type")
  end.

(** [model_dump(by_alias=True, exclude_none=True)]; no field declares an
    alias. *)
Definition model_dump (d : t) : gmap string pyval :=
  dump_dict
    [("kind", Some (VStr (kind d)));
     ("sell_date", Some (VDate (sell_date d)));
     ("issue_date", Some (VDate (issue_date d)));
     ("seller_name", VStr <$> seller_name d);
     ("seller_tax_no", VStr <$> seller_tax_no d);
     ("buyer_name", VStr <$> buyer_name d);
     ("buyer_tax_no", VStr <$> buyer_tax_no d);
     ("buyer_email", VStr <$> buyer_email d);
     ("payment_to", VDate <$> payment_to d);
     ("payment_method", VStr <$> payment_method d);
     ("positions",
      Some (VList ((fun p => VDict (InvoicePositionDTO.model_dump p))
                     <$> positions d)));
     ("correction_reason", VStr <$> correction_reason d);
     ("invoice_id", VInt <$> invoice_id d);
     ("from_invoice_id", VInt <$> from_invoice_id d);
     ("id", VInt <$> id d);
     ("created_at", VStr <$> created_at d);
     ("updated_at", VStr <$> updated_at d);
     ("invoice_url", VStr <$> invoice_url d)].

(** The constraints of the class hold of the record. *)
Definition valid (d : t) : bool :=
  str_in (kind d) DocumentKind
  && (1 <=? Z.of_nat (length (positions d)))
  && forallb InvoicePositionDTO.valid (positions d).

End InvoiceDTO.

(** ** api_client.py: the client and its dispatcher *)

Record FakturowniaApiClient := Client {
  base_url : string;
  api_token : string;
  timeout : Z
}.

(** [FakturowniaApiClient.__init__(domain, api_token, request_timeout=10)] *)
Definition FakturowniaApiClient_init (domain api_token : string)
    (request_timeout : option Z) : FakturowniaApiClient :=
  {| base_url := "https://" +:+ domain +:+ ".fakturownia.pl";
     api_token := api_token;
     timeout := default 10 request_timeout |}.

(** Modelled from the spec: the list of the [if method in:] test of
    [_make_request], whose literal is missing from the source.  The spec
    names POST and PUT for the body and GET and DELETE for the query string,
    and so do the comments of the source above the two tests ("Metody zapisu
    (POST, PUT)", "Metody odczytu/usuwania (GET, DELETE)"). *)
Definition write_methods : list string := ["POST"; "PUT"].

(** Modelled from the spec: the list of the [elif method in:] test, missing
    from the source in the same way. *)
Definition read_methods : list string := ["GET"; "DELETE"].

(** [x.copy() if x else {}] for an optional dictionary [x]. *)
Definition copy_or_new (x : option loc) : M loc :=
  match x with
  | None => alloc ∅
  | Some l =>
      d <- load l;;
      if dict_truthy d then alloc d else alloc ∅
  end.

Section Dispatcher.

(** The service behind [self.session]. *)
Variable session_request : request -> transport.

(** [self.session.request(method, url, params=, json=, timeout=)] *)
Definition session_request_call (method url : string)
    (params js : loc) (tmo : Z) : M transport :=
  fun w =>
    let rq := {| req_method := method;
                 req_url := url;
                 req_params := default ∅ (heap w !! params);
                 req_json := default ∅ (heap w !! js);
                 req_timeout := tmo |} in
    (Return (session_request rq),
     {| heap := heap w; wire := wire w ++ [rq] |}).

(** The error raised for a response outside 200..299. *)
Definition status_error (status : Z) (error_message : string)
    (error_details : pyval) : api_error :=
  if status =? 400 then
    error_init ValidationError error_message (Some status) error_details
  else if (status =? 401) || (status =? 403) then
    error_init AuthenticationError error_message (Some status) error_details
  else if status =? 404 then
    error_init ResourceNotFoundError error_message (Some status) error_details
  else if (500 <=? status) && (status <? 600) then
    error_init ServerError error_message (Some status) error_details
  else
    error_init FakturowniaAPIException error_message (Some status) error_details.

(** What [_make_request] does with the response. *)
Definition handle_response (r : response) : M pyval :=
  if (200 <=? status_code r) && (status_code r <? 300) then
    if (status_code r =? 204) || negb (str_truthy (content r)) then
      ret VNone
    else
      match json r with
      | Some v => ret v
      | None =>
          raise (Api (error_init FakturowniaAPIException
                        "Nie udało się zdekodować odpowiedzi JSON."
                        None VNone))
      end
  else
    error_details <-
      (if str_truthy (content r) then
         match json r with
         | Some v => ret v
         | None => raise JSONDecodeError
         end
       else ret VNone);;
    let error_message :=
      "Błąd API Fakturownia (HTTP " +:+ pretty (status_code r) +:+ "): "
        +:+ text r in
    raise (Api (status_error (status_code r) error_message error_details)).

(** [_make_request(self, method, endpoint, request_params=None,
    json_data=None)].  The test [if request_json is None] inside the first
    branch never holds, [request_json] being a dictionary by then. *)
Definition _make_request (self : FakturowniaApiClient)
    (method endpoint : string) (request_params json_data : option loc)
    : M pyval :=
  let full_url := base_url self +:+ endpoint in
  request_params <- copy_or_new request_params;;
  request_json <- copy_or_new json_data;;
  (if str_in method write_methods then
     setitem request_json "api_token" (VStr (api_token self))
   else if str_in method read_methods then
     setitem request_params "api_token" (VStr (api_token self))
   else ret tt);;;
  t <- session_request_call method full_url request_params request_json
         (timeout self);;
  match t with
  | RequestException e =>
      raise (Api (error_init FakturowniaAPIException
                    ("Błąd sieciowy podczas komunikacji z API: " +:+ e)
                    None VNone))
  | Responded r => handle_response r
  end.


(** The keyword argument [name] of a call, [None] (the default of both
    optional parameters) when the call does not give it. *)
Definition kwarg (name : string) (keywords : list (string * option loc))
    : option loc :=
  match find (fun kv => String.eqb kv.1 name) keywords with
  | Some kv => kv.2
  | None => None
  end.

(** A call [self.client._make_request(method, endpoint, k=v, ...)]: Python
    binds the keywords to the parameters [request_params] and [json_data] of
    the signature, and raises [TypeError] for a keyword that is no parameter
    of it, or that names one already given by position. *)
Definition call_make_request (self : FakturowniaApiClient)
    (method endpoint : string) (keywords : list (string * option loc))
    : M pyval :=
  match find (fun kv => negb (str_in kv.1 ["request_params"; "json_data"]))
             keywords with
  | Some kv =>
      if str_in kv.1 ["method"; "endpoint"] then
        raise (TypeError ("_make_request() got multiple values for argument '"
                            +:+ kv.1 +:+ "'"))
      else
        raise (TypeError ("_make_request() got an unexpected keyword argument '"
                            +:+ kv.1 +:+ "'"))
  | None =>
      _make_request self method endpoint
        (kwarg "request_params" keywords) (kwarg "json_data" keywords)
  end.

(** ** api_client.py: the invoices endpoint *)

Record InvoicesEndpoint := Endpoint {
  client : FakturowniaApiClient;
  endpoint_base : string
}.

(** [InvoicesEndpoint.__init__(client)] *)
Definition InvoicesEndpoint_init (client : FakturowniaApiClient)
    : InvoicesEndpoint :=
  {| client := client; endpoint_base := "/invoices.json" |}.

(** [d.update(other)] *)
Definition update (l : loc) (other : gmap string pyval) : M unit :=
  fun w =>
    (Return tt,
     {| heap := <[l := other ∪ default ∅ (heap w !! l)]> (heap w);
        wire := wire w |}).

Definition create_invoice (self : InvoicesEndpoint)
    (invoice_data : InvoiceDTO.t) : M InvoiceDTO.t :=
  payload <- alloc {[ "invoice" := VDict (InvoiceDTO.model_dump invoice_data) ]};;
  response_data <- call_make_request (client self) "POST" (endpoint_base self)
                     [("json_data", Some payload)];;
  lift (InvoiceDTO.model_validate response_data).

Definition get_invoice (self : InvoicesEndpoint) (invoice_id : Z)
    : M InvoiceDTO.t :=
  let endpoint := "/invoices/" +:+ pretty invoice_id +:+ ".json" in
  response_data <- call_make_request (client self) "GET" endpoint [];;
  lift (InvoiceDTO.model_validate response_data).

(** [list_invoices(period, date_from, date_to, page, per_page,
    include_positions, **kwargs)].  The call of the dispatcher gives the
    query parameters under the keyword [params]; the function ends on a
    bare [return]. *)
Definition list_invoices (self : InvoicesEndpoint) (period : string)
    (date_from date_to : option date) (page per_page : Z)
    (include_positions : bool) (kwargs : gmap string pyval) : M pyval :=
  params <- alloc (<["per_page" := VInt (Z.min per_page 100)]>
                     (<["page" := VInt page]> {[ "period" := VStr period ]}));;
  (match date_from with
   | Some d => setitem params "date_from" (VStr (isoformat d))
   | None => ret tt
   end);;;
  (match date_to with
   | Some d => setitem params "date_to" (VStr (isoformat d))
   | None => ret tt
   end);;;
  (if include_positions then setitem params "include_positions" (VStr "true")
   else ret tt);;;
  update params kwargs;;;
  response_data <- call_make_request (client self) "GET" (endpoint_base self)
                     [("params", Some params)];;
  ret VNone.

(** Modelled from the spec: the type of [update_data], a [Union] whose
    members are missing from the source; the spec has it as a
    full document or a raw partial-field mapping, and the body tests
    [isinstance(update_data, InvoiceDTO)].  The raw mapping is a dictionary
    of the caller, put under the key ['invoice'] as it is at the call. *)
Definition update_invoice (self : InvoicesEndpoint) (invoice_id : Z)
    (update_data : InvoiceDTO.t + loc) : M InvoiceDTO.t :=
  let endpoint := "/invoices/" +:+ pretty invoice_id +:+ ".json" in
  payload <-
    (match update_data with
     | inl d => alloc {[ "invoice" := VDict (InvoiceDTO.model_dump d) ]}
     | inr l => raw <- load l;; alloc {[ "invoice" := VDict raw ]}
     end);;
  response_data <- call_make_request (client self) "PUT" endpoint
                     [("json_data", Some payload)];;
  lift (InvoiceDTO.model_validate response_data).

Definition delete_invoice_permanently (self : InvoicesEndpoint)
    (invoice_id : Z) : M bool :=
  let endpoint := "/invoices/" +:+ pretty invoice_id +:+ ".json" in
  call_make_request (client self) "DELETE" endpoint [];;;
  ret true.

(** [void_invoice(invoice_id, reason=None)]: the branch [if reason:] is
    [pass].  The call of the dispatcher gives the query parameters under the
    keyword [params]. *)
Definition void_invoice (self : InvoicesEndpoint) (invoice_id : Z)
    (reason : option string) : M bool :=
  let endpoint := "/invoices/" +:+ pretty invoice_id +:+ "/change_status.json" in
  params <- alloc {[ "status" := VStr VOID_STATUS ]};;
  call_make_request (client self) "POST" endpoint [("params", Some params)];;;
  ret true.

End Dispatcher.

(** ** Notions used in the statements *)

(** The contents of an optional dictionary argument at a call. *)
Definition dict_at (w : world) (x : option loc) : gmap string pyval :=
  match x with
  | None => ∅
  | Some l => default ∅ (heap w !! l)
  end.

(** The optional dictionary argument is [None] or refers to an object of the
    store, as every reference of a running program does. *)
Definition allocated (w : world) (x : option loc) : Prop :=
  match x with
  | None => True
  | Some l => is_Some (heap w !! l)
  end.

(** The request that [_make_request] hands to the session. *)
Definition sent_request (self : FakturowniaApiClient)
    (method endpoint : string) (request_params json_data : option loc)
    (w : world) : request :=
  {| req_method := method;
     req_url := base_url self +:+ endpoint;
     req_params :=
       if str_in method write_methods then dict_at w request_params
       else if str_in method read_methods then
         <["api_token" := VStr (api_token self)]> (dict_at w request_params)
       else dict_at w request_params;
     req_json :=
       if str_in method write_methods then
         <["api_token" := VStr (api_token self)]> (dict_at w json_data)
       else dict_at w json_data;
     req_timeout := timeout self |}.

(** The outcome is a validation error of pydantic. *)
Definition validation_failure {A} (o : outcome A) : Prop :=
  exists field msg, o = Raise (PydanticValidationError field msg).

(** The entry of a list of dumped fields under a key. *)
Definition field_of (k : string) (es : list (string * option pyval))
    : option pyval :=
  match find (fun e => String.eqb e.1 k) es with
  | Some e => e.2
  | None => None
  end.

(** What a snapshot is after a dump and a validation of the dump: a [tax]
    of [None] has become the default, and [kind], which is never dumped, is
    the default. *)
Definition echoed_correction (c : CorrectionAttributesDTO.t)
    : CorrectionAttributesDTO.t :=
  {| CorrectionAttributesDTO.name := CorrectionAttributesDTO.name c;
     CorrectionAttributesDTO.quantity := CorrectionAttributesDTO.quantity c;
     CorrectionAttributesDTO.total_price_gross :=
       CorrectionAttributesDTO.total_price_gross c;
     CorrectionAttributesDTO.tax :=
       match CorrectionAttributesDTO.tax c with
       | Some f => Some f
       | None => Some float_23
       end;
     CorrectionAttributesDTO.kind := Some "correction_before" |}.

(** What a position is after a dump and a validation of the dump. *)
Definition echoed_position (p : InvoicePositionDTO.t) : InvoicePositionDTO.t :=
  {| InvoicePositionDTO.id := InvoicePositionDTO.id p;
     InvoicePositionDTO.name := InvoicePositionDTO.name p;
     InvoicePositionDTO.quantity := InvoicePositionDTO.quantity p;
     InvoicePositionDTO.total_price_gross :=
       InvoicePositionDTO.total_price_gross p;
     InvoicePositionDTO.tax := InvoicePositionDTO.tax p;
     InvoicePositionDTO.kind := InvoicePositionDTO.kind p;
     InvoicePositionDTO.correction_before_attributes :=
       echoed_correction <$> InvoicePositionDTO.correction_before_attributes p;
     InvoicePositionDTO.correction_after_attributes :=
       echoed_correction <$> InvoicePositionDTO.correction_after_attributes p |}.

(** What a document is after a dump and a validation of the dump: a
    [payment_method] of [None] has become the default. *)
Definition echoed_invoice (d : InvoiceDTO.t) : InvoiceDTO.t :=
  {| InvoiceDTO.kind := InvoiceDTO.kind d;
     InvoiceDTO.sell_date := InvoiceDTO.sell_date d;
     InvoiceDTO.issue_date := InvoiceDTO.issue_date d;
     InvoiceDTO.seller_name := InvoiceDTO.seller_name d;
     InvoiceDTO.seller_tax_no := InvoiceDTO.seller_tax_no d;
     InvoiceDTO.buyer_name := InvoiceDTO.buyer_name d;
     InvoiceDTO.buyer_tax_no := InvoiceDTO.buyer_tax_no d;
     InvoiceDTO.buyer_email := InvoiceDTO.buyer_email d;
     InvoiceDTO.payment_to := InvoiceDTO.payment_to d;
     InvoiceDTO.payment_method :=
       match InvoiceDTO.payment_method d with
       | Some s => Some s
       | None => Some "Przelew"
       end;
     InvoiceDTO.positions := echoed_position <$> InvoiceDTO.positions d;
     InvoiceDTO.correction_reason := InvoiceDTO.correction_reason d;
     InvoiceDTO.invoice_id := InvoiceDTO.invoice_id d;
     InvoiceDTO.from_invoice_id := InvoiceDTO.from_invoice_id d;
     InvoiceDTO.id := InvoiceDTO.id d;
     InvoiceDTO.created_at := InvoiceDTO.created_at d;
     InvoiceDTO.updated_at := InvoiceDTO.updated_at d;
     InvoiceDTO.invoice_url := InvoiceDTO.invoice_url d |}.

(** The snapshot has a [tax] and the default [kind]. *)
Definition plain_correction (c : CorrectionAttributesDTO.t) : Prop :=
  CorrectionAttributesDTO.tax c <> None
  /\ CorrectionAttributesDTO.kind c = Some "correction_before".

(** The snapshots of the position, if any, are plain. *)
Definition plain_position (p : InvoicePositionDTO.t) : Prop :=
  (forall c, InvoicePositionDTO.correction_before_attributes p = Some c ->
             plain_correction c)
  /\ (forall c, InvoicePositionDTO.correction_after_attributes p = Some c ->
                plain_correction c).

(** A mocked session for [create_invoice]: it answers 200 with the document
    found under ['invoice'] in the body of the request, unwrapped.  The text
    of the body only has to be there. *)
Definition echo_invoice : request -> transport :=
  fun rq =>
    Responded {| status_code := 200;
                 content := "{...}";
                 text := "{...}";
                 json := req_json rq !! "invoice" |}.

(** The program of a caller: build the document, then create it. *)
Definition build_and_create (session : request -> transport)
    (self : InvoicesEndpoint) (kw : gmap string pyval) : M InvoiceDTO.t :=
  new_invoice <- lift (InvoiceDTO.init kw);;
  create_invoice session self new_invoice.

(** ** Example data *)

Definition world0 : world := {| heap := ∅; wire := [] |}.

Definition client0 : FakturowniaApiClient :=
  FakturowniaApiClient_init "firma" "TOKEN" None.

Definition invoices0 : InvoicesEndpoint := InvoicesEndpoint_init client0.

(** A caller's query parameters, held at location 1. *)
Definition world1 : world :=
  {| heap := {[ 1%positive := {[ "page" := VInt 2 ]} ]}; wire := [] |}.

(** A session that answers every request with the same response.  In the
    responses below the text of a body is written with ' for the double
    quote of JSON; [json] is what the body decodes to. *)
Definition answering (r : response) : request -> transport :=
  fun _ => Responded r.

Definition not_found_json : response :=
  {| status_code := 404;
     content := "{'error': 'not found'}";
     text := "{'error': 'not found'}";
     json := Some (VDict {[ "error" := VStr "not found" ]}) |}.

Definition not_found_empty_list : response :=
  {| status_code := 404; content := "[]"; text := "[]";
     json := Some (VList []) |}.

Definition bad_gateway_html : response :=
  {| status_code := 502;
     content := "<html>Bad Gateway</html>";
     text := "<html>Bad Gateway</html>";
     json := None |}.

Definition two_invoices : response :=
  {| status_code := 200;
     content := "[{'id': 1}, {'id': 2}]";
     text := "[{'id': 1}, {'id': 2}]";
     json := Some (VList [VDict {[ "id" := VInt 1 ]};
                          VDict {[ "id" := VInt 2 ]}]) |}.

Definition no_content : response :=
  {| status_code := 204; content := ""; text := ""; json := None |}.

Definition day0 : date := {| year := 2024; month := 1; day := 15 |}.

Definition position0 : InvoicePositionDTO.t :=
  {| InvoicePositionDTO.id := None;
     InvoicePositionDTO.name := "Usługa programistyczna";
     InvoicePositionDTO.quantity := NInt 1;
     InvoicePositionDTO.total_price_gross := PStr "1230.00";
     InvoicePositionDTO.tax := TaxInt 23;
     InvoicePositionDTO.kind := None;
     InvoicePositionDTO.correction_before_attributes := None;
     InvoicePositionDTO.correction_after_attributes := None |}.

(** A document with [payment_method="Gotówka"]. *)
Definition invoice0 : InvoiceDTO.t :=
  {| InvoiceDTO.kind := "vat";
     InvoiceDTO.sell_date := day0;
     InvoiceDTO.issue_date := day0;
     InvoiceDTO.seller_name := None;
     InvoiceDTO.seller_tax_no := None;
     InvoiceDTO.buyer_name := Some "Nowy Klient";
     InvoiceDTO.buyer_tax_no := Some "1234567890";
     InvoiceDTO.buyer_email := None;
     InvoiceDTO.payment_to := None;
     InvoiceDTO.payment_method := Some "Gotówka";
     InvoiceDTO.positions := [position0];
     InvoiceDTO.correction_reason := None;
     InvoiceDTO.invoice_id := None;
     InvoiceDTO.from_invoice_id := None;
     InvoiceDTO.id := None;
     InvoiceDTO.created_at := None;
     InvoiceDTO.updated_at := None;
     InvoiceDTO.invoice_url := None |}.

(** The keyword arguments of a document with [payment_method=None]. *)
Definition invoice_kw_no_method : gmap string pyval :=
  <["kind" := VStr "vat"]>
    (<["sell_date" := VDate day0]>
       (<["issue_date" := VDate day0]>
          (<["payment_method" := VNone]>
             {[ "positions" :=
                  VList [VDict (InvoicePositionDTO.model_dump position0)] ]}))).

(** The same document, as the constructor returns it. *)
Definition invoice_no_method : InvoiceDTO.t :=
  {| InvoiceDTO.kind := "vat";
     InvoiceDTO.sell_date := day0;
     InvoiceDTO.issue_date := day0;
     InvoiceDTO.seller_name := None;
     InvoiceDTO.seller_tax_no := None;
     InvoiceDTO.buyer_name := None;
     InvoiceDTO.buyer_tax_no := None;
     InvoiceDTO.buyer_email := None;
     InvoiceDTO.payment_to := None;
     InvoiceDTO.payment_method := None;
     InvoiceDTO.positions := [position0];
     InvoiceDTO.correction_reason := None;
     InvoiceDTO.invoice_id := None;
     InvoiceDTO.from_invoice_id := None;
     InvoiceDTO.id := None;
     InvoiceDTO.created_at := None;
     InvoiceDTO.updated_at := None;
     InvoiceDTO.invoice_url := None |}.

(** A correcting position whose before snapshot has [tax=None]. *)
Definition position_with_snapshot : InvoicePositionDTO.t :=
  {| InvoicePositionDTO.id := None;
     InvoicePositionDTO.name := "Usługa programistyczna";
     InvoicePositionDTO.quantity := NInt 1;
     InvoicePositionDTO.total_price_gross := PStr "615.00";
     InvoicePositionDTO.tax := TaxInt 23;
     InvoicePositionDTO.kind := Some "correction";
     InvoicePositionDTO.correction_before_attributes :=
       Some {| CorrectionAttributesDTO.name := Some "Usługa programistyczna";
               CorrectionAttributesDTO.quantity := Some (NInt 2);
               CorrectionAttributesDTO.total_price_gross := None;
               CorrectionAttributesDTO.tax := None;
               CorrectionAttributesDTO.kind := Some "correction_before" |};
     InvoicePositionDTO.correction_after_attributes := None |}.

(** Its keyword arguments. *)
Definition position_kw_with_snapshot : gmap string pyval :=
  <["name" := VStr "Usługa programistyczna"]>
    (<["quantity" := VInt 1]>
       (<["total_price_gross" := VStr "615.00"]>
          (<["tax" := VInt 23]>
             (<["kind" := VStr "correction"]>
                {[ "correction_before_attributes" :=
                     VDict (<["name" := VStr "Usługa programistyczna"]>
                              (<["quantity" := VInt 2]>
                                 {[ "tax" := VNone ]})) ]})))).

(** The keyword arguments of a correcting document with that position. *)
Definition invoice_kw_with_snapshot : gmap string pyval :=
  <["kind" := VStr "correction"]>
    (<["sell_date" := VDate day0]>
       (<["issue_date" := VDate day0]>
          (<["correction_reason" := VStr "Zmiana ilości"]>
             (<["invoice_id" := VInt 7]>
                {[ "positions" := VList [VDict position_kw_with_snapshot] ]})))).

(** The same document, as the constructor returns it. *)
Definition invoice_with_snapshot : InvoiceDTO.t :=
  {| InvoiceDTO.kind := "correction";
     InvoiceDTO.sell_date := day0;
     InvoiceDTO.issue_date := day0;
     InvoiceDTO.seller_name := None;
     InvoiceDTO.seller_tax_no := None;
     InvoiceDTO.buyer_name := None;
     InvoiceDTO.buyer_tax_no := None;
     InvoiceDTO.buyer_email := None;
     InvoiceDTO.payment_to := None;
     InvoiceDTO.payment_method := Some "Przelew";
     InvoiceDTO.positions := [position_with_snapshot];
     InvoiceDTO.correction_reason := Some "Zmiana ilości";
     InvoiceDTO.invoice_id := Some 7;
     InvoiceDTO.from_invoice_id := None;
     InvoiceDTO.id := None;
     InvoiceDTO.created_at := None;
     InvoiceDTO.updated_at := None;
     InvoiceDTO.invoice_url := None |}.

(** The keyword arguments of a document without positions. *)
Definition invoice_kw_no_positions : gmap string pyval :=
  <["kind" := VStr "vat"]>
    (<["sell_date" := VDate day0]>
       (<["issue_date" := VDate day0]>
          {[ "positions" := VList [] ]})).

(** The keyword arguments of a correcting position: [kind="correction"],
    the two snapshots, and the quantity -1. *)
Definition correction_position_kw : gmap string pyval :=
  <["name" := VStr "Korekta"]>
    (<["quantity" := VInt (-1)]>
       (<["total_price_gross" := VStr "-100.00"]>
          (<["tax" := VInt 23]>
             (<["kind" := VStr "correction"]>
                (<["correction_before_attributes" :=
                     VDict (<["name" := VStr "Usługa"]>
                              {[ "quantity" := VInt 2 ]})]>
                   {[ "correction_after_attributes" :=
                        VDict (<["name" := VStr "Usługa"]>
                                 {[ "quantity" := VInt 1 ]}) ]}))))).

(** ** Further notions and example data *)

(** The names of the fields of [InvoiceDTO], in the order of the class. *)
Definition InvoiceDTO_fields : list string :=
  ["kind"; "sell_date"; "issue_date"; "seller_name"; "seller_tax_no";
   "buyer_name"; "buyer_tax_no"; "buyer_email"; "payment_to";
   "payment_method"; "positions"; "correction_reason"; "invoice_id";
   "from_invoice_id"; "id"; "created_at"; "updated_at"; "invoice_url"].

(** The four fields of [InvoiceDTO] declared without a default. *)
Definition InvoiceDTO_required : list string :=
  ["kind"; "sell_date"; "issue_date"; "positions"].

(** The endpoint of one invoice, [f'/invoices/{invoice_id}.json']. *)
Definition item_endpoint (invoice_id : Z) : string :=
  "/invoices/" +:+ pretty invoice_id +:+ ".json".

(** The request with the token in the query string and nothing else. *)
Definition read_request (self : FakturowniaApiClient) (method endpoint : string)
    : request :=
  {| req_method := method;
     req_url := base_url self +:+ endpoint;
     req_params := {[ "api_token" := VStr (api_token self) ]};
     req_json := ∅;
     req_timeout := timeout self |}.

(** The request with a document under ['invoice'] and the token in the
    body, and no query parameter. *)
Definition write_request (self : FakturowniaApiClient) (method endpoint : string)
    (invoice : gmap string pyval) : request :=
  {| req_method := method;
     req_url := base_url self +:+ endpoint;
     req_params := ∅;
     req_json := <["api_token" := VStr (api_token self)]>
                   {[ "invoice" := VDict invoice ]};
     req_timeout := timeout self |}.

(** The response is in 200..299. *)
Definition is_2xx (r : response) : Prop := 200 <= status_code r < 300.

(** A session that raises the same [RequestException] for every request. *)
Definition refusing (e : string) : request -> transport :=
  fun _ => RequestException e.

(** A 200 response whose body decodes to [v]. *)
Definition ok_json (v : pyval) : response :=
  {| status_code := 200; content := "{...}"; text := "{...}"; json := Some v |}.

(** A 200 response whose body is an HTML page. *)
Definition ok_html : response :=
  {| status_code := 200;
     content := "<html>OK</html>";
     text := "<html>OK</html>";
     json := None |}.

(** A caller's partial update, held at location 1; its [positions] are
    empty. *)
Definition raw_update : gmap string pyval :=
  <["buyer_name" := VStr "Nowy Klient"]> {[ "positions" := VList [] ]}.

Definition world2 : world :=
  {| heap := {[ 1%positive := raw_update ]}; wire := [] |}.

(** The keyword arguments of a document that does not give
    [payment_method]. *)
Definition invoice_kw_plain : gmap string pyval :=
  InvoiceDTO.model_dump invoice_no_method.

(** ** The dispatcher *)

Lemma dict_truthy_false (m : gmap string pyval) :
  dict_truthy m = false -> m = ∅.
Proof.
  unfold dict_truthy. intros H.
  apply negb_false_iff, bool_decide_eq_true in H.
  by apply map_size_empty_inv.
Qed.

(** Copying allocates a new object that holds what the argument held. *)
Lemma copy_or_new_run (x : option loc) (w : world) :
  copy_or_new x w =
  (Return (fresh (dom (heap w))),
   {| heap := <[fresh (dom (heap w)) := dict_at w x]> (heap w);
      wire := wire w |}).
Proof.
  destruct x as [l|]; [|reflexivity].
  unfold copy_or_new, bind, load, alloc; simpl.
  destruct (dict_truthy (default ∅ (heap w !! l))) eqn:E; [reflexivity|].
  by rewrite (dict_truthy_false _ E).
Qed.

(** The response is handled without touching the store or the session. *)
Lemma handle_response_world (r : response) (w : world) :
  snd (handle_response r w) = w.
Proof.
  unfold handle_response, bind, ret, raise.
  repeat (match goal with
          | |- context [if ?b then _ else _] => destruct b
          | |- context [match json r with _ => _ end] => destruct (json r)
          end; simpl; try reflexivity).
Qed.

Lemma fresh_not_allocated (h : gmap loc (gmap string pyval)) :
  h !! fresh (dom h) = None.
Proof. apply not_elem_of_dom, is_fresh. Qed.

(** One call of the dispatcher: two dictionaries are allocated, one request
    goes to the session, and the response is handled. *)
Lemma _make_request_run session self method endpoint rp jd w :
  allocated w rp -> allocated w jd ->
  exists h',
    (forall l d, heap w !! l = Some d -> h' !! l = Some d) /\
    _make_request session self method endpoint rp jd w =
    let w' := {| heap := h';
                 wire := wire w ++ [sent_request self method endpoint rp jd w] |} in
    match session (sent_request self method endpoint rp jd w) with
    | RequestException e =>
        (Raise (Api (error_init FakturowniaAPIException
                       ("Błąd sieciowy podczas komunikacji z API: " +:+ e)
                       None VNone)), w')
    | Responded r => handle_response r w'
    end.
Proof.
  intros Hrp Hjd.
  set (h := heap w).
  set (l1 := fresh (dom h)).
  set (h1 := <[l1 := dict_at w rp]> h).
  set (l2 := fresh (dom h1)).
  assert (Hl1 : h !! l1 = None) by apply fresh_not_allocated.
  assert (Hl2 : h1 !! l2 = None) by apply fresh_not_allocated.
  assert (Hne : l1 <> l2).
  { intros E. rewrite <- E in Hl2. unfold h1 in Hl2.
    by rewrite lookup_insert_eq in Hl2. }
  assert (Hj : dict_at {| heap := h1; wire := wire w |} jd = dict_at w jd).
  { destruct jd as [l|]; [|reflexivity]. simpl in *. fold h in Hjd |- *.
    unfold h1. rewrite lookup_insert_ne; [done|].
    intros E. rewrite <- E, Hl1 in Hjd. by destruct Hjd. }
  assert (Hkeep : forall m1 m2 l d,
             h !! l = Some d -> <[l2 := m2]> (<[l1 := m1]> h) !! l = Some d).
  { intros m1 m2 l d Hl.
    assert (l1 <> l) by (intros E; rewrite <- E in Hl; congruence).
    assert (l2 <> l).
    { intros E. rewrite <- E in Hl. unfold h1 in Hl2.
      rewrite lookup_insert_ne in Hl2 by done. congruence. }
    by rewrite !lookup_insert_ne. }
  assert (Hne' : l2 <> l1) by (intros E; by apply Hne).
  unfold _make_request, bind.
  rewrite copy_or_new_run. fold h l1 h1.
  rewrite copy_or_new_run. simpl heap. simpl wire. fold l2. rewrite Hj.
  unfold sent_request.
  destruct (str_in method write_methods) eqn:Ew;
    [|destruct (str_in method read_methods) eqn:Er].
  - exists (<[l2 := <["api_token" := VStr (api_token self)]> (dict_at w jd)]>
              (<[l2 := dict_at w jd]> h1)).
    split.
    { intros l d Hl. rewrite insert_insert_eq. by apply Hkeep. }
    unfold setitem, session_request_call; simpl.
    unfold h1. simplify_map_eq.
    by destruct (session _).
  - exists (<[l1 := <["api_token" := VStr (api_token self)]> (dict_at w rp)]>
              (<[l2 := dict_at w jd]> h1)).
    split.
    { intros l d Hl.
      assert (l1 <> l) by (intros E; rewrite <- E in Hl; congruence).
      rewrite lookup_insert_ne by done.
      by apply Hkeep. }
    unfold setitem, session_request_call; simpl.
    unfold h1. simplify_map_eq.
    by destruct (session _).
  - exists (<[l2 := dict_at w jd]> h1).
    split.
    { intros l d Hl. by apply Hkeep. }
    unfold ret, session_request_call; simpl.
    unfold h1. simplify_map_eq.
    by destruct (session _).
Qed.

Lemma _make_request_wire session self method endpoint rp jd w :
  allocated w rp -> allocated w jd ->
  wire (snd (_make_request session self method endpoint rp jd w)) =
  wire w ++ [sent_request self method endpoint rp jd w].
Proof.
  intros Hrp Hjd.
  destruct (_make_request_run session self method endpoint rp jd w Hrp Hjd)
    as (h' & _ & ->).
  simpl. destruct (session _); [|reflexivity].
  by rewrite handle_response_world.
Qed.

Lemma _make_request_heap session self method endpoint rp jd w l d :
  allocated w rp -> allocated w jd ->
  heap w !! l = Some d ->
  heap (snd (_make_request session self method endpoint rp jd w)) !! l = Some d.
Proof.
  intros Hrp Hjd Hl.
  destruct (_make_request_run session self method endpoint rp jd w Hrp Hjd)
    as (h' & Hkeep & ->).
  simpl. destruct (session _); [|by apply Hkeep].
  rewrite handle_response_world. by apply Hkeep.
Qed.

(** The outcome of a call whose request is answered by [r]. *)
Lemma _make_request_responded session self method endpoint rp jd w r :
  allocated w rp -> allocated w jd ->
  session (sent_request self method endpoint rp jd w) = Responded r ->
  exists w',
    fst (_make_request session self method endpoint rp jd w) =
    fst (handle_response r w').
Proof.
  intros Hrp Hjd Hr.
  destruct (_make_request_run session self method endpoint rp jd w Hrp Hjd)
    as (h' & _ & ->).
  simpl. rewrite Hr. eauto.
Qed.

Lemma outside_2xx (s : Z) :
  ~ (200 <= s < 300) -> (200 <=? s) && (s <? 300) = false.
Proof. intros H. apply andb_false_iff. lia. Qed.

Lemma str_truthy_false (s : string) : str_truthy s = false <-> s = "".
Proof. destruct s; simpl; split; congruence. Qed.

Lemma str_truthy_true (s : string) : str_truthy s = true <-> s <> "".
Proof. destruct s; simpl; split; congruence. Qed.

(** C1. For POST and PUT the request handed to the session has the token
    under ['api_token'] in its JSON body, which is otherwise the caller's,
    and its query parameters are the caller's own: nothing is put into the
    query string, which has no ['api_token'] when the caller gave none.  For
    GET and DELETE the token is under ['api_token'] in the query parameters,
    and the body is the caller's own, with no ['api_token'] when the caller
    gave none. *)
Theorem token_injected_by_method session self method endpoint rp jd w :
  allocated w rp -> allocated w jd ->
  exists rq,
    wire (snd (_make_request session self method endpoint rp jd w))
      = wire w ++ [rq]
    /\ req_method rq = method
    /\ (method = "POST" \/ method = "PUT" ->
        req_json rq !! "api_token" = Some (VStr (api_token self))
        /\ req_json rq
             = <["api_token" := VStr (api_token self)]> (dict_at w jd)
        /\ req_params rq = dict_at w rp
        /\ (dict_at w rp !! "api_token" = None ->
            req_params rq !! "api_token" = None))
    /\ (method = "GET" \/ method = "DELETE" ->
        req_params rq !! "api_token" = Some (VStr (api_token self))
        /\ req_params rq
             = <["api_token" := VStr (api_token self)]> (dict_at w rp)
        /\ req_json rq = dict_at w jd
        /\ (dict_at w jd !! "api_token" = None ->
            req_json rq !! "api_token" = None)).
Proof.
  intros Hrp Hjd.
  exists (sent_request self method endpoint rp jd w).
  split; [by apply _make_request_wire|].
  split; [reflexivity|].
  split.
  - intros Hm.
    assert (str_in method write_methods = true) as E
      by (destruct Hm as [-> | ->]; reflexivity).
    unfold sent_request. rewrite E. cbn [req_json req_params].
    by rewrite lookup_insert_eq.
  - intros Hm.
    assert (str_in method write_methods = false) as E
      by (destruct Hm as [-> | ->]; reflexivity).
    assert (str_in method read_methods = true) as E'
      by (destruct Hm as [-> | ->]; reflexivity).
    unfold sent_request. rewrite E, E'. cbn [req_json req_params].
    by rewrite lookup_insert_eq.
Qed.

Lemma token_injected_by_method_witness :
  (allocated world1 (Some 1%positive) /\ allocated world1 None)
  /\ exists rq,
       wire (snd (_make_request (answering no_content) client0 "PUT"
                    "/invoices/7.json" (Some 1%positive) None world1))
         = wire world1 ++ [rq]
       /\ req_json rq !! "api_token" = Some (VStr (api_token client0))
       /\ req_params rq !! "api_token" = None.
Proof.
  assert (H1 : allocated world1 (Some 1%positive)) by (by eexists).
  assert (H2 : allocated world1 None) by exact I.
  split; [by split|].
  destruct (token_injected_by_method (answering no_content) client0 "PUT"
              "/invoices/7.json" (Some 1%positive) None world1 H1 H2)
    as (rq & Hw & _ & Hwrite & _).
  exists rq.
  destruct (Hwrite (or_intror eq_refl)) as (Hb & _ & _ & Hq).
  split; [exact Hw|]. split; [exact Hb|]. apply Hq. reflexivity.
Defined.

(** C2, as amended.  When the response is outside 200..299 and its body is
    empty or decodes as JSON, the call raises an error of the taxonomy whose
    class follows the status (400: validation; 401 and 403: authentication;
    404: not found; 500..599: server; any other: the base class) and which
    carries the status code; its details are the decoded body when the body
    is not empty and decodes to a value that counts as true, and the empty
    dictionary otherwise. *)
Theorem error_class_by_status session self method endpoint rp jd w r :
  allocated w rp -> allocated w jd ->
  session (sent_request self method endpoint rp jd w) = Responded r ->
  ~ (200 <= status_code r < 300) ->
  content r = "" \/ is_Some (json r) ->
  exists e,
    fst (_make_request session self method endpoint rp jd w) = Raise (Api e)
    /\ status_code_of e = Some (status_code r)
    /\ (content r = "" -> details e = VDict ∅)
    /\ (forall v, content r <> "" -> json r = Some v ->
        details e = if truthy v then v else VDict ∅)
    /\ (status_code r = 400 -> err_class e = ValidationError)
    /\ (status_code r = 401 \/ status_code r = 403 ->
        err_class e = AuthenticationError)
    /\ (status_code r = 404 -> err_class e = ResourceNotFoundError)
    /\ (500 <= status_code r < 600 -> err_class e = ServerError)
    /\ (status_code r <> 400 -> status_code r <> 401 ->
        status_code r <> 403 -> status_code r <> 404 ->
        ~ (500 <= status_code r < 600) ->
        err_class e = FakturowniaAPIException).
Proof.
  intros Hrp Hjd Hr Hs Hbody.
  destruct (_make_request_responded session self method endpoint rp jd w r
              Hrp Hjd Hr) as (w' & ->).
  unfold handle_response. rewrite (outside_2xx _ Hs).
  set (msg := "Błąd API Fakturownia (HTTP " +:+ pretty (status_code r)
                +:+ "): " +:+ text r).
  assert (Hcls : forall dt,
    let e := status_error (status_code r) msg dt in
    status_code_of e = Some (status_code r)
    /\ details e = py_or dt (VDict ∅)
    /\ (status_code r = 400 -> err_class e = ValidationError)
    /\ (status_code r = 401 \/ status_code r = 403 ->
        err_class e = AuthenticationError)
    /\ (status_code r = 404 -> err_class e = ResourceNotFoundError)
    /\ (500 <= status_code r < 600 -> err_class e = ServerError)
    /\ (status_code r <> 400 -> status_code r <> 401 ->
        status_code r <> 403 -> status_code r <> 404 ->
        ~ (500 <= status_code r < 600) ->
        err_class e = FakturowniaAPIException)).
  { intros dt. unfold status_error.
    destruct (Z.eqb_spec (status_code r) 400);
      [simpl; repeat split; intros; (reflexivity || lia)|].
    destruct (Z.eqb_spec (status_code r) 401);
      [simpl; repeat split; intros; (reflexivity || lia)|].
    destruct (Z.eqb_spec (status_code r) 403);
      [simpl; repeat split; intros; (reflexivity || lia)|].
    destruct (Z.eqb_spec (status_code r) 404);
      [simpl; repeat split; intros; (reflexivity || lia)|].
    destruct (Z.leb_spec 500 (status_code r));
      destruct (Z.ltb_spec (status_code r) 600);
      simpl; repeat split; intros; (reflexivity || lia). }
  destruct (str_truthy (content r)) eqn:Ec.
  - apply str_truthy_true in Ec.
    destruct Hbody as [Hb | [v Hv]]; [done|].
    rewrite Hv. unfold bind, ret, raise; simpl.
    destruct (Hcls v) as (H1 & H2 & H3).
    eexists; split; [reflexivity|].
    split; [exact H1|]. split; [done|].
    split; [|exact H3].
    intros v' _ Hv'. simplify_eq. exact H2.
  - apply str_truthy_false in Ec.
    unfold bind, ret, raise; simpl.
    destruct (Hcls VNone) as (H1 & H2 & H3).
    eexists; split; [reflexivity|].
    split; [exact H1|]. split; [intros _; exact H2|].
    split; [|exact H3].
    intros v Hne. done.
Qed.

Lemma error_class_by_status_witness :
  (allocated world0 None /\ allocated world0 None
   /\ answering not_found_json
        (sent_request client0 "GET" "/invoices/1.json" None None world0)
      = Responded not_found_json
   /\ ~ (200 <= status_code not_found_json < 300)
   /\ (content not_found_json = "" \/ is_Some (json not_found_json)))
  /\ exists e,
       fst (_make_request (answering not_found_json) client0 "GET"
              "/invoices/1.json" None None world0) = Raise (Api e)
       /\ status_code_of e = Some 404
       /\ err_class e = ResourceNotFoundError
       /\ details e = VDict {[ "error" := VStr "not found" ]}.
Proof.
  assert (H1 : allocated world0 None) by exact I.
  assert (H2 : answering not_found_json
                 (sent_request client0 "GET" "/invoices/1.json" None None world0)
               = Responded not_found_json) by reflexivity.
  assert (H3 : ~ (200 <= status_code not_found_json < 300))
    by (simpl; lia).
  assert (H4 : content not_found_json = "" \/ is_Some (json not_found_json))
    by (right; by eexists).
  split; [by repeat split|].
  destruct (error_class_by_status (answering not_found_json) client0 "GET"
              "/invoices/1.json" None None world0 not_found_json
              H1 H1 H2 H3 H4)
    as (e & He & Hst & _ & Hd & _ & _ & Hnf & _).
  exists e. split; [exact He|]. split; [exact Hst|].
  split; [by apply Hnf|].
  by rewrite (Hd _ ltac:(done) eq_refl).
Defined.

(** C2, as stated, fails.  A 404 response whose body is the JSON text [[]]
    raises the not-found error with the empty dictionary as details, not the
    decoded body, which is the empty list; and a 502 response whose body is
    an HTML page raises no error of the taxonomy at all. *)
Lemma error_class_by_status_counterexample :
  (exists msg,
     fst (_make_request (answering not_found_empty_list) client0 "GET"
            "/invoices/1.json" None None world0)
     = Raise (Api {| err_class := ResourceNotFoundError;
                     message := msg;
                     status_code_of := Some 404;
                     details := VDict ∅ |}))
  /\ json not_found_empty_list = Some (VList [])
  /\ VDict ∅ <> VList []
  /\ fst (_make_request (answering bad_gateway_html) client0 "GET"
            "/invoices/1.json" None None world0)
     = Raise JSONDecodeError.
Proof.
  split; [eexists; vm_compute; reflexivity|].
  split; [reflexivity|].
  split; [discriminate|].
  vm_compute; reflexivity.
Qed.

(** C10. When the response is outside 200..299 and its body is not empty and
    is not JSON, the call raises the decode exception of [response.json()],
    which has neither status code nor details, and no error of the
    taxonomy. *)
Theorem undecodable_error_body_escapes session self method endpoint rp jd w r :
  allocated w rp -> allocated w jd ->
  session (sent_request self method endpoint rp jd w) = Responded r ->
  ~ (200 <= status_code r < 300) ->
  content r <> "" ->
  json r = None ->
  fst (_make_request session self method endpoint rp jd w)
    = Raise JSONDecodeError
  /\ forall e,
       fst (_make_request session self method endpoint rp jd w)
         <> Raise (Api e).
Proof.
  intros Hrp Hjd Hr Hs Hc Hj.
  destruct (_make_request_responded session self method endpoint rp jd w r
              Hrp Hjd Hr) as (w' & ->).
  unfold handle_response. rewrite (outside_2xx _ Hs).
  apply str_truthy_true in Hc. rewrite Hc, Hj.
  split; [reflexivity|]. intros e. discriminate.
Qed.

Lemma undecodable_error_body_escapes_witness :
  (allocated world0 None
   /\ answering bad_gateway_html
        (sent_request client0 "DELETE" "/invoices/3.json" None None world0)
      = Responded bad_gateway_html
   /\ ~ (200 <= status_code bad_gateway_html < 300)
   /\ content bad_gateway_html <> ""
   /\ json bad_gateway_html = None)
  /\ fst (_make_request (answering bad_gateway_html) client0 "DELETE"
            "/invoices/3.json" None None world0)
     = Raise JSONDecodeError.
Proof.
  assert (H1 : allocated world0 None) by exact I.
  assert (H2 : answering bad_gateway_html
                 (sent_request client0 "DELETE" "/invoices/3.json" None None
                    world0)
               = Responded bad_gateway_html) by reflexivity.
  assert (H3 : ~ (200 <= status_code bad_gateway_html < 300))
    by (simpl; lia).
  assert (H4 : content bad_gateway_html <> "") by discriminate.
  assert (H5 : json bad_gateway_html = None) by reflexivity.
  split; [by repeat split|].
  exact (proj1 (undecodable_error_body_escapes (answering bad_gateway_html)
                  client0 "DELETE" "/invoices/3.json" None None world0
                  bad_gateway_html H1 H1 H2 H3 H4 H5)).
Defined.

(** C9. Whatever the method and whatever comes back, every dictionary of the
    store holds after the call what it held before it, the two given by the
    caller among them: the token goes into copies. *)
Theorem callers_mappings_unchanged session self method endpoint rp jd w :
  allocated w rp -> allocated w jd ->
  (forall l d,
     heap w !! l = Some d ->
     heap (snd (_make_request session self method endpoint rp jd w)) !! l
       = Some d)
  /\ dict_at (snd (_make_request session self method endpoint rp jd w)) rp
       = dict_at w rp
  /\ dict_at (snd (_make_request session self method endpoint rp jd w)) jd
       = dict_at w jd.
Proof.
  intros Hrp Hjd.
  assert (Hall : forall l d,
    heap w !! l = Some d ->
    heap (snd (_make_request session self method endpoint rp jd w)) !! l
      = Some d)
    by (intros l d Hl; by apply _make_request_heap).
  split; [exact Hall|].
  split.
  - destruct rp as [l|]; [|reflexivity]. simpl in *.
    destruct Hrp as [d Hd]. by rewrite (Hall _ _ Hd), Hd.
  - destruct jd as [l|]; [|reflexivity]. simpl in *.
    destruct Hjd as [d Hd]. by rewrite (Hall _ _ Hd), Hd.
Qed.

Lemma callers_mappings_unchanged_witness :
  (allocated world1 (Some 1%positive) /\ allocated world1 None)
  /\ dict_at (snd (_make_request (answering no_content) client0 "GET"
                     "/invoices.json" (Some 1%positive) None world1))
             (Some 1%positive)
     = {[ "page" := VInt 2 ]}.
Proof.
  assert (H1 : allocated world1 (Some 1%positive)) by (by eexists).
  assert (H2 : allocated world1 None) by exact I.
  split; [by split|].
  destruct (callers_mappings_unchanged (answering no_content) client0 "GET"
              "/invoices.json" (Some 1%positive) None world1 H1 H2)
    as (_ & Hp & _).
  rewrite Hp. reflexivity.
Defined.

(** ** The document model *)

Lemma required_failure {A B} (f : pyval -> option A) name kw e :
  required f name kw = Raise e -> validation_failure (@Raise B e).
Proof.
  unfold required. intros H.
  destruct (kw !! name) as [v|]; [destruct (f v)|]; simplify_eq;
    by do 2 eexists.
Qed.

Lemma optional_failure {A B} (f : pyval -> option A) dflt name kw e :
  optional f dflt name kw = Raise e -> validation_failure (@Raise B e).
Proof.
  unfold optional. intros H.
  destruct (kw !! name) as [v|]; [|done].
  destruct v; try done; destruct (f _); simplify_eq; by do 2 eexists.
Qed.

Lemma constraint_failure {B} ok name msg e :
  constraint ok name msg = Raise e -> validation_failure (@Raise B e).
Proof.
  unfold constraint. destruct ok; intros H; simplify_eq. by do 2 eexists.
Qed.

(** One field of a constructor: it fails with a validation error, or the
    next fields decide. *)
Ltac next_field :=
  match goal with
  | |- validation_failure (obind ?o _) =>
      let E := fresh "E" in
      destruct o eqn:E; simpl;
      [| first [ exact (required_failure _ _ _ _ E)
               | exact (optional_failure _ _ _ _ _ E)
               | exact (constraint_failure _ _ _ _ E) ] ]
  end.

Lemma required_found {A} (f : pyval -> option A) name kw v a :
  kw !! name = Some v -> f v = Some a -> required f name kw = Return a.
Proof. unfold required. by intros -> ->. Qed.

Lemma float_le0_not_gt0 (f : spec_float) :
  SFleb f (S754_zero false) = true -> SFltb (S754_zero false) f = false.
Proof.
  destruct f as [s|s| |s m e]; try destruct s; simpl; try done.
Qed.

Lemma le0_not_gt0 (q : number) : le0 q = true -> gt0 q = false.
Proof.
  destruct q as [n|f]; simpl.
  - intros H. apply Z.leb_le in H. apply Z.ltb_ge. lia.
  - apply float_le0_not_gt0.
Qed.

(** X25. A position whose quantity is at most 0 is refused, whatever its
    other fields are, [kind] and the two snapshots among them. *)
Lemma nonpositive_quantity_refused (kw : gmap string pyval) (q : number) :
  kw !! "quantity" = Some (of_number q) ->
  le0 q = true ->
  validation_failure (InvoicePositionDTO.init kw).
Proof.
  intros Hq Hle. unfold InvoicePositionDTO.init.
  do 2 next_field.
  rewrite (required_found as_number "quantity" kw _ q Hq)
    by (by destruct q).
  simpl. rewrite (le0_not_gt0 _ Hle). simpl.
  by do 2 eexists.
Qed.

(** A document whose positions are the empty list is refused. *)
Lemma empty_positions_refused (kw : gmap string pyval) :
  kw !! "positions" = Some (VList []) ->
  validation_failure (InvoiceDTO.init kw).
Proof.
  intros Hp. unfold InvoiceDTO.init.
  do 10 next_field.
  rewrite (required_found (as_list as_position) "positions" kw _ [] Hp)
    by reflexivity.
  simpl. by do 2 eexists.
Qed.

(** *** Dump, then validation *)

Lemma field_of_absent k es : k ∉ es.*1 -> field_of k es = None.
Proof.
  unfold field_of. induction es as [|[k' ov] es IH]; simpl; [done|].
  intros Hk. apply not_elem_of_cons in Hk as [Hne Hk].
  destruct (String.eqb_spec k' k) as [->|_]; [done|]. by apply IH.
Qed.

(** A dump holds, under each key, the value of the field when it is not
    excluded. *)
Lemma dump_dict_lookup es k :
  NoDup es.*1 -> dump_dict es !! k = field_of k es.
Proof.
  induction es as [|[k' ov] es IH]; simpl; [by rewrite lookup_empty|].
  intros Hnd. apply NoDup_cons in Hnd as [Hk' Hnd].
  unfold field_of; simpl. fold (dump_dict es).
  destruct (String.eqb_spec k' k) as [->|Hne]; simpl.
  - destruct ov as [v|]; [by rewrite lookup_insert_eq|].
    rewrite IH by done. by apply field_of_absent.
  - destruct ov as [v|]; [rewrite lookup_insert_ne by done|]; by apply IH.
Qed.

(** An optional field of a dump validates to what was dumped, and to the
    default when the field was [None] and so left out. *)
Lemma optional_echo {A B} (f : pyval -> option B) (g : A -> pyval)
    (h : A -> B) dflt name es x :
  NoDup es.*1 ->
  field_of name es = g <$> x ->
  (forall a, g a <> VNone) ->
  (forall a, f (g a) = Some (h a)) ->
  optional f dflt name (dump_dict es)
  = Return (match x with Some a => Some (h a) | None => dflt end).
Proof.
  intros Hnd Hk Hg Hf. unfold optional.
  rewrite dump_dict_lookup, Hk by done.
  destruct x as [a|]; simpl; [|done].
  specialize (Hg a). rewrite Hf. by destruct (g a).
Qed.

Lemma required_echo {A} (f : pyval -> option A) name es v a :
  NoDup es.*1 ->
  field_of name es = Some v ->
  f v = Some a ->
  required f name (dump_dict es) = Return a.
Proof.
  intros Hnd Hk Hf. unfold required.
  by rewrite dump_dict_lookup, Hk, Hf.
Qed.

Lemma of_number_echo q : as_number (of_number q) = Some q.
Proof. by destruct q. Qed.

Lemma of_str_or_float_echo p : as_str_or_float (of_str_or_float p) = Some p.
Proof. by destruct p. Qed.

Lemma of_VatRate_echo t : as_VatRate (of_VatRate t) = Some t.
Proof. by destruct t. Qed.

Lemma of_number_not_None q : of_number q <> VNone.
Proof. by destruct q. Qed.

Lemma of_str_or_float_not_None p : of_str_or_float p <> VNone.
Proof. by destruct p. Qed.

Lemma option_same {A} (x : option A) :
  match x with Some a => Some a | None => None end = x.
Proof. by destruct x. Qed.

Lemma option_fmap_same {A B} (h : A -> B) (x : option A) :
  match x with Some a => Some (h a) | None => None end = h <$> x.
Proof. by destruct x. Qed.

(** The keys of a dump are the field names, each once. *)
Ltac dump_keys :=
  simpl; apply (bool_decide_unpack _); by vm_compute.

(** The fields of a dump, one after the other. *)
Ltac echo_fields :=
  repeat first
    [ erewrite (optional_echo as_str VStr (fun s => s));
        [| dump_keys | reflexivity | done | done]
    | erewrite (optional_echo as_int VInt (fun n => n));
        [| dump_keys | reflexivity | done | done]
    | erewrite (optional_echo as_float VFloat (fun f => f));
        [| dump_keys | reflexivity | done | done]
    | erewrite (optional_echo as_date VDate (fun d => d));
        [| dump_keys | reflexivity | done | done]
    | erewrite (optional_echo as_number of_number (fun q => q));
        [| dump_keys | reflexivity
         | apply of_number_not_None | apply of_number_echo]
    | erewrite (optional_echo as_str_or_float of_str_or_float (fun p => p));
        [| dump_keys | reflexivity
         | apply of_str_or_float_not_None | apply of_str_or_float_echo]
    | erewrite (required_echo as_str);
        [| dump_keys | reflexivity | reflexivity]
    | erewrite (required_echo as_date);
        [| dump_keys | reflexivity | reflexivity]
    | erewrite (required_echo as_number);
        [| dump_keys | reflexivity | apply of_number_echo]
    | erewrite (required_echo as_str_or_float);
        [| dump_keys | reflexivity | apply of_str_or_float_echo]
    | erewrite (required_echo as_VatRate);
        [| dump_keys | reflexivity | apply of_VatRate_echo] ].

Lemma correction_echo (c : CorrectionAttributesDTO.t) :
  CorrectionAttributesDTO.init (CorrectionAttributesDTO.model_dump c)
  = Return (echoed_correction c).
Proof.
  unfold CorrectionAttributesDTO.init, CorrectionAttributesDTO.model_dump.
  echo_fields.
  unfold optional at 1.
  rewrite dump_dict_lookup by dump_keys.
  cbn [obind field_of find fst snd String.eqb Ascii.eqb Bool.eqb].
  by rewrite !option_same.
Qed.

Lemma as_correction_echo (c : CorrectionAttributesDTO.t) :
  as_correction (VDict (CorrectionAttributesDTO.model_dump c))
  = Some (echoed_correction c).
Proof. unfold as_correction. by rewrite correction_echo. Qed.

Lemma position_echo (p : InvoicePositionDTO.t) :
  InvoicePositionDTO.valid p = true ->
  InvoicePositionDTO.init (InvoicePositionDTO.model_dump p)
  = Return (echoed_position p).
Proof.
  unfold InvoicePositionDTO.valid. intros Hq.
  unfold InvoicePositionDTO.init, InvoicePositionDTO.model_dump.
  echo_fields.
  do 2 (erewrite (optional_echo as_correction _ echoed_correction);
        [| dump_keys | reflexivity | done | apply as_correction_echo]).
  cbn [obind]. rewrite Hq. cbn [constraint obind].
  by rewrite !option_same, !option_fmap_same.
Qed.

Lemma as_position_echo (p : InvoicePositionDTO.t) :
  InvoicePositionDTO.valid p = true ->
  as_position (VDict (InvoicePositionDTO.model_dump p))
  = Some (echoed_position p).
Proof. intros Hp. unfold as_position. by rewrite position_echo. Qed.

Lemma positions_echo (ps : list InvoicePositionDTO.t) :
  forallb InvoicePositionDTO.valid ps = true ->
  as_list as_position
    (VList ((fun p => VDict (InvoicePositionDTO.model_dump p)) <$> ps))
  = Some (echoed_position <$> ps).
Proof.
  unfold as_list. induction ps as [|p ps IH]; [done|].
  simpl forallb. intros H. apply andb_true_iff in H as [Hp Hps].
  rewrite fmap_cons. cbn [mapM].
  rewrite (as_position_echo _ Hp). simpl.
  rewrite (IH Hps). reflexivity.
Qed.

(** The dump of a valid document validates to the document, up to the
    defaults that replace what the dump leaves out. *)
Lemma invoice_echo (d : InvoiceDTO.t) :
  InvoiceDTO.valid d = true ->
  InvoiceDTO.model_validate (VDict (InvoiceDTO.model_dump d))
  = Return (echoed_invoice d).
Proof.
  unfold InvoiceDTO.valid. intros H.
  apply andb_true_iff in H as [H Hps]. apply andb_true_iff in H as [Hk Hn].
  unfold InvoiceDTO.model_validate, InvoiceDTO.init, InvoiceDTO.model_dump.
  echo_fields.
  erewrite (required_echo (as_literal DocumentKind));
    [| dump_keys | reflexivity | unfold as_literal; by rewrite Hk].
  erewrite (required_echo (as_list as_position));
    [| dump_keys | reflexivity | by apply positions_echo].
  cbn [obind]. rewrite length_fmap, Hn. cbn [constraint obind].
  by rewrite !option_same.
Qed.

Lemma plain_correction_echo (c : CorrectionAttributesDTO.t) :
  plain_correction c -> echoed_correction c = c.
Proof.
  destruct c as [n q t x k]. unfold plain_correction, echoed_correction; simpl.
  intros [Hx ->]. by destruct x.
Qed.

Lemma plain_position_echo (p : InvoicePositionDTO.t) :
  plain_position p -> echoed_position p = p.
Proof.
  destruct p as [i n q t x k b a]. unfold plain_position, echoed_position; simpl.
  intros [Hb Ha].
  destruct b as [b|], a as [a|]; simpl;
    rewrite ?(plain_correction_echo b), ?(plain_correction_echo a); auto.
Qed.

Lemma plain_positions_echo (ps : list InvoicePositionDTO.t) :
  Forall plain_position ps -> echoed_position <$> ps = ps.
Proof.
  induction 1 as [|p ps Hp _ IH]; [done|].
  by rewrite fmap_cons, (plain_position_echo _ Hp), IH.
Qed.

(** C5, as amended.  A valid document that goes through [create_invoice]
    with a session that echoes the dumped document comes back with every
    field as the caller gave it, except that a [payment_method] given as
    [None] comes back as the default "Przelew" and that, in the snapshots of
    its positions, a [tax] given as [None] comes back as the default 23.0
    and [kind] comes back as the default; so the document comes back
    unchanged when its [payment_method] is not [None] and its snapshots
    have a [tax] and the default [kind]. *)
Theorem echoed_create_reproduces (self : InvoicesEndpoint)
    (d : InvoiceDTO.t) (w : world) :
  InvoiceDTO.valid d = true ->
  fst (create_invoice echo_invoice self d w) = Return (echoed_invoice d)
  /\ (InvoiceDTO.payment_method d <> None ->
      Forall plain_position (InvoiceDTO.positions d) ->
      echoed_invoice d = d).
Proof.
  intros Hv. split.
  - unfold create_invoice, bind at 1, alloc.
    set (l := fresh (dom (heap w))).
    set (payload := {[ "invoice" := VDict (InvoiceDTO.model_dump d) ]}).
    set (w1 := {| heap := <[l := payload]> (heap w); wire := wire w |}).
    change (call_make_request echo_invoice (client self) "POST"
              (endpoint_base self) [("json_data", Some l)])
      with (_make_request echo_invoice (client self) "POST"
              (endpoint_base self) None (Some l)).
    assert (Hl : heap w1 !! l = Some payload) by apply lookup_insert_eq.
    destruct (_make_request_run echo_invoice (client self) "POST"
                (endpoint_base self) None (Some l) w1 I)
      as (h' & _ & Hrun); [by eexists|].
    unfold bind. rewrite Hrun. clear Hrun.
    unfold echo_invoice at 1, sent_request at 1.
    change (str_in "POST" write_methods) with true.
    cbn [req_json dict_at]. rewrite Hl. cbn [default].
    unfold payload at 1.
    unfold id. rewrite lookup_insert_ne by done. rewrite lookup_singleton_eq.
    rewrite <- (invoice_echo d Hv). reflexivity.
  - intros Hm Hps. destruct d; unfold echoed_invoice; simpl in *.
    f_equal.
    + by destruct payment_method.
    + by apply plain_positions_echo.
Qed.

Lemma echoed_create_reproduces_witness :
  InvoiceDTO.valid invoice0 = true
  /\ fst (create_invoice echo_invoice invoices0 invoice0 world0)
     = Return invoice0.
Proof.
  assert (Hv : InvoiceDTO.valid invoice0 = true) by reflexivity.
  split; [exact Hv|].
  destruct (echoed_create_reproduces invoices0 invoice0 world0 Hv)
    as [Hrun Hsame].
  rewrite Hrun, Hsame; [reflexivity|discriminate|].
  constructor; [split; intros c Hc; discriminate|constructor].
Defined.

(** C5, as stated, fails.  The document built with [payment_method=None] is
    valid; it comes back from the echoing session with [payment_method]
    "Przelew".  The correcting document whose position has a before
    snapshot with [tax=None] is valid; it comes back with the [tax] of the
    snapshot 23.0. *)
Lemma echoed_create_counterexample :
  (InvoiceDTO.init invoice_kw_no_method = Return invoice_no_method
   /\ InvoiceDTO.valid invoice_no_method = true
   /\ InvoiceDTO.payment_method invoice_no_method = None
   /\ exists d',
        fst (create_invoice echo_invoice invoices0 invoice_no_method world0)
          = Return d'
        /\ InvoiceDTO.payment_method d' = Some "Przelew"
        /\ d' <> invoice_no_method)
  /\ (InvoiceDTO.init invoice_kw_with_snapshot = Return invoice_with_snapshot
      /\ InvoiceDTO.valid invoice_with_snapshot = true
      /\ exists d',
           fst (create_invoice echo_invoice invoices0 invoice_with_snapshot
                  world0)
             = Return d'
           /\ d' <> invoice_with_snapshot).
Proof.
  split.
  - split; [vm_compute; reflexivity|].
    split; [reflexivity|].
    split; [reflexivity|].
    eexists. split; [vm_compute; reflexivity|].
    split; [reflexivity|discriminate].
  - split; [vm_compute; reflexivity|].
    split; [reflexivity|].
    eexists. split; [vm_compute; reflexivity|discriminate].
Qed.

(** C7. The constructor refuses keyword arguments whose [positions] is the
    empty list with a validation error of pydantic, and a caller that builds
    the document and then creates it ends there: the store and the log of
    the session are as they were, and no request has been made. *)
Theorem empty_positions_refused_before_sending session self kw w :
  kw !! "positions" = Some (VList []) ->
  validation_failure (InvoiceDTO.init kw)
  /\ exists field msg,
       build_and_create session self kw w
       = (Raise (PydanticValidationError field msg), w).
Proof.
  intros Hp.
  destruct (empty_positions_refused kw Hp) as (field & msg & E).
  split; [by exists field, msg|].
  exists field, msg. unfold build_and_create, bind, lift. by rewrite E.
Qed.

Lemma empty_positions_refused_before_sending_witness :
  invoice_kw_no_positions !! "positions" = Some (VList [])
  /\ exists field msg,
       build_and_create (answering no_content) invoices0
         invoice_kw_no_positions world0
       = (Raise (PydanticValidationError field msg), world0).
Proof.
  assert (H : invoice_kw_no_positions !! "positions" = Some (VList []))
    by reflexivity.
  split; [exact H|].
  exact (proj2 (empty_positions_refused_before_sending (answering no_content)
                  invoices0 invoice_kw_no_positions world0 H)).
Defined.

(** C3 fails on the code.  A position with [kind="correction"], the two
    snapshots and the quantity -1 is refused by the constructor, by the
    [gt=0] constraint of [quantity]. *)
Theorem correction_position_refused :
  InvoicePositionDTO.init correction_position_kw
  = Raise (PydanticValidationError "quantity" "greater_than").
Proof. vm_compute. reflexivity. Qed.

(** ** The invoices endpoint *)

(** The keyword [params] is no parameter of [_make_request]. *)
Lemma call_with_params_raises session self method endpoint l w :
  call_make_request session self method endpoint [("params", Some l)] w
  = (Raise (TypeError
              "_make_request() got an unexpected keyword argument 'params'"),
     w).
Proof. reflexivity. Qed.

(** X22. No call of [list_invoices] reaches the session: whatever the
    arguments, it raises [TypeError] at its call of the dispatcher and the
    log of the session is as it was. *)
Lemma list_invoices_sends_nothing session self period date_from date_to
    page per_page include_positions kwargs w :
  fst (list_invoices session self period date_from date_to page per_page
         include_positions kwargs w)
  = Raise (TypeError
             "_make_request() got an unexpected keyword argument 'params'")
  /\ wire (snd (list_invoices session self period date_from date_to page
                  per_page include_positions kwargs w))
     = wire w.
Proof.
  unfold list_invoices, bind, alloc, update, setitem, ret.
  destruct date_from, date_to, include_positions; simpl; done.
Qed.

(** X23. No call of [void_invoice] reaches the session: whatever the id and
    the reason, it raises [TypeError] at its call of the dispatcher and the
    log of the session is as it was. *)
Lemma void_invoice_sends_nothing session self invoice_id reason w :
  fst (void_invoice session self invoice_id reason w)
  = Raise (TypeError
             "_make_request() got an unexpected keyword argument 'params'")
  /\ wire (snd (void_invoice session self invoice_id reason w)) = wire w.
Proof. unfold void_invoice, bind, alloc; simpl. done. Qed.

(** The query parameters that [list_invoices] builds have [per_page] at
    most 100; they stay in the store. *)
Lemma per_page_clamped session self period date_from date_to
    page per_page include_positions kwargs w :
  kwargs !! "per_page" = None ->
  heap (snd (list_invoices session self period date_from date_to page
               per_page include_positions kwargs w))
    !! fresh (dom (heap w)) ≫= (.!! "per_page")
  = Some (VInt (Z.min per_page 100)).
Proof.
  intros Hk.
  unfold list_invoices, bind, alloc, update, setitem, ret.
  destruct date_from, date_to, include_positions; simpl;
    simplify_map_eq; rewrite lookup_union_r by done; by simplify_map_eq.
Qed.

(** C4 fails on the code.  With a session that would answer 200 and a list
    of two entries, [list_invoices] raises [TypeError] at its call of the
    dispatcher, and no request is made. *)
Theorem list_invoices_raises :
  fst (list_invoices (answering two_invoices) invoices0 "this_month"
         None None 1 100 false ∅ world0)
  = Raise (TypeError
             "_make_request() got an unexpected keyword argument 'params'")
  /\ wire (snd (list_invoices (answering two_invoices) invoices0
                  "this_month" None None 1 100 false ∅ world0))
     = [].
Proof. split; vm_compute; reflexivity. Qed.

(** C6 fails on the code.  [list_invoices] with [per_page=500] builds query
    parameters with [per_page] 100, raises [TypeError] at its call of the
    dispatcher, and transmits nothing. *)
Theorem list_invoices_500_transmits_nothing :
  heap (snd (list_invoices (answering two_invoices) invoices0 "this_month"
               None None 1 500 false ∅ world0))
    !! 1%positive ≫= (.!! "per_page")
  = Some (VInt 100)
  /\ fst (list_invoices (answering two_invoices) invoices0 "this_month"
            None None 1 500 false ∅ world0)
     = Raise (TypeError
                "_make_request() got an unexpected keyword argument 'params'")
  /\ wire (snd (list_invoices (answering two_invoices) invoices0
                  "this_month" None None 1 500 false ∅ world0))
     = [].
Proof. repeat split; vm_compute; reflexivity. Qed.

(** C8 fails on the code.  [void_invoice(42)] builds the query parameters
    with the status "anulowana", raises [TypeError] at its call of the
    dispatcher, and no request is made. *)
Theorem void_invoice_42_sends_nothing :
  heap (snd (void_invoice (answering no_content) invoices0 42 None world0))
    !! 1%positive
  = Some {[ "status" := VStr "anulowana" ]}
  /\ fst (void_invoice (answering no_content) invoices0 42 None world0)
     = Raise (TypeError
                "_make_request() got an unexpected keyword argument 'params'")
  /\ wire (snd (void_invoice (answering no_content) invoices0 42 None
                  world0))
     = [].
Proof. repeat split; vm_compute; reflexivity. Qed.

(** ** Further properties of the dispatcher *)

Lemma handle_response_fst (r : response) (w1 w2 : world) :
  fst (handle_response r w1) = fst (handle_response r w2).
Proof.
  unfold handle_response, bind, ret, raise.
  repeat (match goal with
          | |- context [if ?b then _ else _] => destruct b
          | |- context [match json r with _ => _ end] => destruct (json r)
          end; simpl; try reflexivity).
Qed.

Lemma inside_2xx (s : Z) :
  200 <= s < 300 -> (200 <=? s) && (s <? 300) = true.
Proof. intros H. apply andb_true_iff. lia. Qed.

(** X1. A response in 200..299 that is a 204 or has an empty body makes the
    call return [None], whether or not the body would decode. *)
Theorem no_content_returns_None session self method endpoint rp jd w r :
  allocated w rp -> allocated w jd ->
  session (sent_request self method endpoint rp jd w) = Responded r ->
  is_2xx r ->
  status_code r = 204 \/ content r = "" ->
  fst (_make_request session self method endpoint rp jd w) = Return VNone.
Proof.
  intros Hrp Hjd Hr Hs Hn.
  destruct (_make_request_responded session self method endpoint rp jd w r
              Hrp Hjd Hr) as (w' & ->).
  unfold handle_response. rewrite (inside_2xx _ Hs).
  destruct Hn as [-> | ->]; [reflexivity|].
  simpl. by rewrite orb_true_r.
Qed.

Lemma no_content_returns_None_witness :
  (allocated world0 None
   /\ answering no_content
        (sent_request client0 "DELETE" "/invoices/3.json" None None world0)
      = Responded no_content
   /\ is_2xx no_content
   /\ (status_code no_content = 204 \/ content no_content = ""))
  /\ fst (_make_request (answering no_content) client0 "DELETE"
            "/invoices/3.json" None None world0)
     = Return VNone.
Proof.
  assert (H1 : allocated world0 None) by exact I.
  assert (H2 : answering no_content
                 (sent_request client0 "DELETE" "/invoices/3.json" None None
                    world0)
               = Responded no_content) by reflexivity.
  assert (H3 : is_2xx no_content) by (unfold is_2xx; simpl; lia).
  assert (H4 : status_code no_content = 204 \/ content no_content = "")
    by (left; reflexivity).
  split; [by repeat split|].
  exact (no_content_returns_None (answering no_content) client0 "DELETE"
           "/invoices/3.json" None None world0 no_content H1 H1 H2 H3 H4).
Defined.

(** X2. A response in 200..299 other than 204 whose body is not empty and
    decodes makes the call return the decoded value as it is, whatever its
    shape. *)
Theorem success_returns_decoded_body session self method endpoint rp jd w r v :
  allocated w rp -> allocated w jd ->
  session (sent_request self method endpoint rp jd w) = Responded r ->
  is_2xx r ->
  status_code r <> 204 ->
  content r <> "" ->
  json r = Some v ->
  fst (_make_request session self method endpoint rp jd w) = Return v.
Proof.
  intros Hrp Hjd Hr Hs H204 Hc Hj.
  destruct (_make_request_responded session self method endpoint rp jd w r
              Hrp Hjd Hr) as (w' & ->).
  unfold handle_response. rewrite (inside_2xx _ Hs).
  apply Z.eqb_neq in H204. apply str_truthy_true in Hc.
  by rewrite H204, Hc, Hj.
Qed.

Lemma success_returns_decoded_body_witness :
  (allocated world0 None
   /\ answering two_invoices
        (sent_request client0 "GET" "/invoices.json" None None world0)
      = Responded two_invoices
   /\ is_2xx two_invoices
   /\ status_code two_invoices <> 204
   /\ content two_invoices <> ""
   /\ json two_invoices
      = Some (VList [VDict {[ "id" := VInt 1 ]}; VDict {[ "id" := VInt 2 ]}]))
  /\ fst (_make_request (answering two_invoices) client0 "GET"
            "/invoices.json" None None world0)
     = Return (VList [VDict {[ "id" := VInt 1 ]}; VDict {[ "id" := VInt 2 ]}]).
Proof.
  assert (H1 : allocated world0 None) by exact I.
  assert (H2 : answering two_invoices
                 (sent_request client0 "GET" "/invoices.json" None None world0)
               = Responded two_invoices) by reflexivity.
  assert (H3 : is_2xx two_invoices) by (unfold is_2xx; simpl; lia).
  assert (H4 : status_code two_invoices <> 204) by (simpl; lia).
  assert (H5 : content two_invoices <> "") by discriminate.
  assert (H6 : json two_invoices
               = Some (VList [VDict {[ "id" := VInt 1 ]};
                              VDict {[ "id" := VInt 2 ]}])) by reflexivity.
  split; [by repeat split|].
  exact (success_returns_decoded_body (answering two_invoices) client0 "GET"
           "/invoices.json" None None world0 two_invoices _
           H1 H1 H2 H3 H4 H5 H6).
Defined.

(** X3. A response in 200..299 other than 204 whose body is not empty and
    is not JSON makes the call raise the base error of the taxonomy, with
    no status code and with empty details: on this side the decode
    exception is caught. *)
Theorem undecodable_success_is_wrapped session self method endpoint rp jd w r :
  allocated w rp -> allocated w jd ->
  session (sent_request self method endpoint rp jd w) = Responded r ->
  is_2xx r ->
  status_code r <> 204 ->
  content r <> "" ->
  json r = None ->
  fst (_make_request session self method endpoint rp jd w)
  = Raise (Api {| err_class := FakturowniaAPIException;
                  message := "Nie udało się zdekodować odpowiedzi JSON.";
                  status_code_of := None;
                  details := VDict ∅ |}).
Proof.
  intros Hrp Hjd Hr Hs H204 Hc Hj.
  destruct (_make_request_responded session self method endpoint rp jd w r
              Hrp Hjd Hr) as (w' & ->).
  unfold handle_response. rewrite (inside_2xx _ Hs).
  apply Z.eqb_neq in H204. apply str_truthy_true in Hc.
  by rewrite H204, Hc, Hj.
Qed.

Lemma undecodable_success_is_wrapped_witness :
  (allocated world0 None
   /\ answering ok_html
        (sent_request client0 "GET" "/invoices/1.json" None None world0)
      = Responded ok_html
   /\ is_2xx ok_html
   /\ status_code ok_html <> 204
   /\ content ok_html <> ""
   /\ json ok_html = None)
  /\ exists e,
       fst (_make_request (answering ok_html) client0 "GET"
              "/invoices/1.json" None None world0) = Raise (Api e)
       /\ err_class e = FakturowniaAPIException
       /\ status_code_of e = None.
Proof.
  assert (H1 : allocated world0 None) by exact I.
  assert (H2 : answering ok_html
                 (sent_request client0 "GET" "/invoices/1.json" None None
                    world0)
               = Responded ok_html) by reflexivity.
  assert (H3 : is_2xx ok_html) by (unfold is_2xx; simpl; lia).
  assert (H4 : status_code ok_html <> 204) by (simpl; lia).
  assert (H5 : content ok_html <> "") by discriminate.
  assert (H6 : json ok_html = None) by reflexivity.
  split; [by repeat split|].
  eexists. split.
  - exact (undecodable_success_is_wrapped (answering ok_html) client0 "GET"
             "/invoices/1.json" None None world0 ok_html
             H1 H1 H2 H3 H4 H5 H6).
  - by split.
Defined.

(** X4. When the session raises a [RequestException], the call raises the
    base error of the taxonomy, whose message ends with the text of the
    exception, with no status code and with empty details; the request was
    handed to the session once, and is not tried again. *)
Theorem transport_failure_is_wrapped session self method endpoint rp jd w e :
  allocated w rp -> allocated w jd ->
  session (sent_request self method endpoint rp jd w) = RequestException e ->
  fst (_make_request session self method endpoint rp jd w)
  = Raise (Api {| err_class := FakturowniaAPIException;
                  message := "Błąd sieciowy podczas komunikacji z API: " +:+ e;
                  status_code_of := None;
                  details := VDict ∅ |})
  /\ wire (snd (_make_request session self method endpoint rp jd w))
     = wire w ++ [sent_request self method endpoint rp jd w].
Proof.
  intros Hrp Hjd He.
  split; [|by apply _make_request_wire].
  destruct (_make_request_run session self method endpoint rp jd w Hrp Hjd)
    as (h' & _ & ->).
  simpl. by rewrite He.
Qed.

Lemma transport_failure_is_wrapped_witness :
  (allocated world0 None
   /\ refusing "Connection refused"
        (sent_request client0 "GET" "/invoices/1.json" None None world0)
      = RequestException "Connection refused")
  /\ exists e,
       fst (_make_request (refusing "Connection refused") client0 "GET"
              "/invoices/1.json" None None world0) = Raise (Api e)
       /\ err_class e = FakturowniaAPIException
       /\ length (wire (snd (_make_request (refusing "Connection refused")
                               client0 "GET" "/invoices/1.json" None None
                               world0))) = 1%nat.
Proof.
  assert (H1 : allocated world0 None) by exact I.
  assert (H2 : refusing "Connection refused"
                 (sent_request client0 "GET" "/invoices/1.json" None None
                    world0)
               = RequestException "Connection refused") by reflexivity.
  split; [by split|].
  destruct (transport_failure_is_wrapped (refusing "Connection refused")
              client0 "GET" "/invoices/1.json" None None world0 _ H1 H1 H2)
    as [Ho Hw].
  eexists. split; [exact Ho|]. split; [reflexivity|].
  by rewrite Hw.
Defined.

(** X5. Whatever comes back, one call hands exactly one request to the
    session: it has the method of the call, the URL of the tenant
    ([https://{domain}.fakturownia.pl]) followed by the endpoint, and the
    timeout given when the client was built, 10 when none was given. *)
Theorem one_request_to_tenant_url session domain token tmo method endpoint
    rp jd w :
  allocated w rp -> allocated w jd ->
  exists rq,
    wire (snd (_make_request session
                 (FakturowniaApiClient_init domain token tmo)
                 method endpoint rp jd w))
      = wire w ++ [rq]
    /\ req_method rq = method
    /\ req_url rq = ("https://" +:+ domain +:+ ".fakturownia.pl") +:+ endpoint
    /\ req_timeout rq = default 10 tmo.
Proof.
  intros Hrp Hjd.
  exists (sent_request (FakturowniaApiClient_init domain token tmo)
            method endpoint rp jd w).
  split; [by apply _make_request_wire|]. by repeat split.
Qed.

Lemma one_request_to_tenant_url_witness :
  (allocated world1 (Some 1%positive) /\ allocated world1 None)
  /\ exists rq,
       wire (snd (_make_request (answering bad_gateway_html) client0 "GET"
                    "/invoices.json" (Some 1%positive) None world1))
         = [rq]
       /\ req_url rq = "https://firma.fakturownia.pl/invoices.json"
       /\ req_timeout rq = 10.
Proof.
  assert (H1 : allocated world1 (Some 1%positive)) by (by eexists).
  assert (H2 : allocated world1 None) by exact I.
  split; [by split|].
  destruct (one_request_to_tenant_url (answering bad_gateway_html) "firma"
              "TOKEN" None "GET" "/invoices.json" (Some 1%positive) None
              world1 H1 H2) as (rq & Hw & _ & Hu & Ht).
  exists rq. split; [exact Hw|]. split; [exact Hu|exact Ht].
Defined.

Lemma str_in_cons_ne (x y : string) (l : list string) :
  x <> y -> str_in x (y :: l) = str_in x l.
Proof.
  intros H. unfold str_in; simpl.
  by rewrite (proj2 (String.eqb_neq x y) H).
Qed.

(** X6. With a method that is none of POST, PUT, GET and DELETE, spelled in
    capitals, the token goes nowhere: the query parameters and the body of
    the request are the caller's own. *)
Theorem other_methods_carry_no_token session self method endpoint rp jd w :
  allocated w rp -> allocated w jd ->
  method <> "POST" -> method <> "PUT" ->
  method <> "GET" -> method <> "DELETE" ->
  exists rq,
    wire (snd (_make_request session self method endpoint rp jd w))
      = wire w ++ [rq]
    /\ req_params rq = dict_at w rp
    /\ req_json rq = dict_at w jd.
Proof.
  intros Hrp Hjd H1 H2 H3 H4.
  exists (sent_request self method endpoint rp jd w).
  split; [by apply _make_request_wire|].
  unfold sent_request, write_methods, read_methods.
  rewrite !str_in_cons_ne by done. by simpl.
Qed.

Lemma other_methods_carry_no_token_witness :
  (allocated world0 None
   /\ "get" <> "POST" /\ "get" <> "PUT" /\ "get" <> "GET" /\ "get" <> "DELETE")
  /\ exists rq,
       wire (snd (_make_request (answering no_content) client0 "get"
                    "/invoices/1.json" None None world0))
         = [rq]
       /\ req_params rq = ∅
       /\ req_json rq = ∅.
Proof.
  assert (H0 : allocated world0 None) by exact I.
  assert (H1 : "get" <> "POST") by discriminate.
  assert (H2 : "get" <> "PUT") by discriminate.
  assert (H3 : "get" <> "GET") by discriminate.
  assert (H4 : "get" <> "DELETE") by discriminate.
  split; [by repeat split|].
  exact (other_methods_carry_no_token (answering no_content) client0 "get"
           "/invoices/1.json" None None world0 H0 H0 H1 H2 H3 H4).
Defined.

Lemma py_or_empty_or_truthy (x : pyval) :
  py_or x (VDict ∅) = VDict ∅ \/ truthy (py_or x (VDict ∅)) = true.
Proof. unfold py_or. destruct (truthy x) eqn:E; auto. Qed.

Lemma status_error_carries (s : Z) (msg : string) (dt : pyval) :
  status_code_of (status_error s msg dt) = Some s
  /\ details (status_error s msg dt) = py_or dt (VDict ∅).
Proof.
  unfold status_error.
  repeat (match goal with
          | |- context [if ?b then _ else _] => destruct b
          end; try done).
Qed.

(** The outcomes of handling a response, by cases. *)
Lemma handle_response_cases (r : response) (w : world) :
  match fst (handle_response r w) with
  | Return v => is_2xx r
  | Raise (Api e) =>
      (details e = VDict ∅ \/ truthy (details e) = true)
      /\ match status_code_of e with
         | None => err_class e = FakturowniaAPIException /\ is_2xx r
         | Some s => status_code r = s /\ ~ is_2xx r
         end
  | Raise JSONDecodeError =>
      ~ is_2xx r /\ content r <> "" /\ json r = None
  | Raise _ => False
  end.
Proof.
  unfold handle_response, is_2xx.
  destruct ((200 <=? status_code r) && (status_code r <? 300)) eqn:E.
  - apply andb_true_iff in E as [E1 E2].
    apply Z.leb_le in E1. apply Z.ltb_lt in E2.
    destruct ((status_code r =? 204) || negb (str_truthy (content r)));
      simpl; [lia|].
    destruct (json r); simpl; [lia|].
    split; [by left|]. split; [done|lia].
  - apply andb_false_iff in E.
    assert (Hs : ~ (200 <= status_code r < 300)) by lia.
    unfold bind. destruct (str_truthy (content r)) eqn:Ec.
    + apply str_truthy_true in Ec.
      destruct (json r) as [v|] eqn:Ej; simpl; [|done].
      destruct (status_error_carries (status_code r)
                  ("Błąd API Fakturownia (HTTP " +:+ pretty (status_code r)
                     +:+ "): " +:+ text r) v) as [-> ->].
      split; [apply py_or_empty_or_truthy|done].
    + simpl.
      destruct (status_error_carries (status_code r)
                  ("Błąd API Fakturownia (HTTP " +:+ pretty (status_code r)
                     +:+ "): " +:+ text r) VNone) as [-> ->].
      split; [apply py_or_empty_or_truthy|done].
Qed.



(** X8. An error of the taxonomy that leaves a call has details that are the
    empty dictionary or count as true, never [None].  When it has no status
    code it is of the base class; when it has one, the code is the status
    of the response, which is outside 200..299. *)
Theorem raised_error_invariants session self method endpoint rp jd w e :
  allocated w rp -> allocated w jd ->
  fst (_make_request session self method endpoint rp jd w) = Raise (Api e) ->
  (details e = VDict ∅ \/ truthy (details e) = true)
  /\ match status_code_of e with
     | None => err_class e = FakturowniaAPIException
     | Some s =>
         exists r,
           session (sent_request self method endpoint rp jd w) = Responded r
           /\ status_code r = s /\ ~ is_2xx r
     end.
Proof.
  intros Hrp Hjd.
  destruct (_make_request_run session self method endpoint rp jd w Hrp Hjd)
    as (h' & _ & ->).
  simpl.
  destruct (session (sent_request self method endpoint rp jd w)) as [r|x]
    eqn:Er.
  - intros He.
    pose proof (handle_response_cases r
                  {| heap := h';
                     wire := wire w
                             ++ [sent_request self method endpoint rp jd w] |})
      as H.
    rewrite He in H. destruct H as [Hd Hs]. split; [exact Hd|].
    destruct (status_code_of e) as [s|]; [|tauto].
    exists r. tauto.
  - simpl. intros [= <-]. simpl. split; [by left|done].
Qed.

Lemma raised_error_invariants_witness :
  (allocated world0 None
   /\ exists e,
        fst (_make_request (answering not_found_empty_list) client0 "GET"
               "/invoices/1.json" None None world0) = Raise (Api e)
        /\ details e = VDict ∅
        /\ status_code_of e = Some 404).
Proof.
  assert (H1 : allocated world0 None) by exact I.
  split; [exact H1|].
  eexists. split; [vm_compute; reflexivity|].
  pose proof (raised_error_invariants (answering not_found_empty_list)
                client0 "GET" "/invoices/1.json" None None world0 _ H1 H1
                eq_refl) as [Hd _].
  split; [|reflexivity].
  destruct Hd as [Hd | Hd]; [exact Hd | discriminate Hd].
Defined.

(** ** Further properties of the invoices endpoint *)

Lemma sent_read_request self method endpoint w :
  method = "GET" \/ method = "DELETE" ->
  sent_request self method endpoint None None w
  = read_request self method endpoint.
Proof.
  intros [-> | ->]; unfold sent_request, read_request; simpl;
    by rewrite insert_empty.
Qed.

Lemma sent_write_request self method endpoint l w invoice :
  method = "POST" \/ method = "PUT" ->
  heap w !! l = Some {[ "invoice" := VDict invoice ]} ->
  sent_request self method endpoint None (Some l) w
  = write_request self method endpoint invoice.
Proof.
  intros Hm Hl. unfold sent_request, write_request.
  assert (str_in method write_methods = true) as ->
    by (destruct Hm as [-> | ->]; reflexivity).
  simpl. by rewrite Hl.
Qed.

(** Validation of the decoded body adds nothing to the log. *)
Lemma then_validate_wire {A} (m : M pyval) (f : pyval -> outcome A) w :
  wire (snd ((response_data <- m;; lift (f response_data)) w))
  = wire (snd (m w)).
Proof. unfold bind, lift. by destruct (m w) as [[v|e] w']. Qed.

Lemma then_validate_fst {A} (m : M pyval) (f : pyval -> outcome A) w v :
  fst (m w) = Return v ->
  fst ((response_data <- m;; lift (f response_data)) w) = f v.
Proof.
  unfold bind, lift. destruct (m w) as [[v'|e] w']; simpl; by intros [= ->].
Qed.

(** A response in 200..299 that needs no decoding, or decodes, makes the
    handling return. *)
Lemma handle_response_returns (r : response) (w : world) :
  is_2xx r ->
  status_code r = 204 \/ content r = "" \/ is_Some (json r) ->
  exists v, fst (handle_response r w) = Return v.
Proof.
  intros Hs Hb. unfold handle_response. rewrite (inside_2xx _ Hs).
  destruct ((status_code r =? 204) || negb (str_truthy (content r))) eqn:E;
    [by eexists|].
  apply orb_false_iff in E as [E1 E2].
  apply Z.eqb_neq in E1. apply negb_false_iff, str_truthy_true in E2.
  destruct Hb as [Hb | [Hb | [v Hv]]]; [done|done|].
  rewrite Hv. by eexists.
Qed.

(** X9. [delete_invoice_permanently] hands one DELETE request for
    [/invoices/{id}.json] to the session, with the token as its only query
    parameter and an empty body, and returns [True] when the response is in
    200..299 and is a 204, or has an empty body, or has a body that
    decodes. *)
Theorem delete_returns_True session self invoice_id w r :
  session (read_request (client self) "DELETE" (item_endpoint invoice_id))
    = Responded r ->
  is_2xx r ->
  status_code r = 204 \/ content r = "" \/ is_Some (json r) ->
  fst (delete_invoice_permanently session self invoice_id w) = Return true
  /\ wire (snd (delete_invoice_permanently session self invoice_id w))
     = wire w
       ++ [read_request (client self) "DELETE" (item_endpoint invoice_id)].
Proof.
  intros Hr Hs Hb.
  unfold delete_invoice_permanently.
  change (call_make_request session (client self) "DELETE"
            ("/invoices/" +:+ pretty invoice_id +:+ ".json") [])
    with (_make_request session (client self) "DELETE"
            (item_endpoint invoice_id) None None).
  pose proof (_make_request_wire session (client self) "DELETE"
                (item_endpoint invoice_id) None None w I I) as Hw.
  rewrite sent_read_request in Hw by auto.
  assert (Ho : exists v,
    fst (_make_request session (client self) "DELETE"
           (item_endpoint invoice_id) None None w) = Return v).
  { rewrite <- (sent_read_request (client self) "DELETE"
                  (item_endpoint invoice_id) w) in Hr by auto.
    destruct (_make_request_responded session (client self) "DELETE"
                (item_endpoint invoice_id) None None w r I I Hr)
      as (w' & ->).
    by apply handle_response_returns. }
  destruct Ho as [v Ho].
  unfold bind, ret.
  destruct (_make_request session (client self) "DELETE"
              (item_endpoint invoice_id) None None w) as [o w'].
  simpl in *. subst o. by split.
Qed.

Lemma delete_returns_True_witness :
  (answering no_content
     (read_request (client invoices0) "DELETE" (item_endpoint 42))
   = Responded no_content
   /\ is_2xx no_content
   /\ (status_code no_content = 204 \/ content no_content = ""
       \/ is_Some (json no_content)))
  /\ fst (delete_invoice_permanently (answering no_content) invoices0 42
            world0) = Return true
  /\ req_url (read_request (client invoices0) "DELETE" (item_endpoint 42))
     = "https://firma.fakturownia.pl/invoices/42.json".
Proof.
  assert (H1 : answering no_content
                 (read_request (client invoices0) "DELETE" (item_endpoint 42))
               = Responded no_content) by reflexivity.
  assert (H2 : is_2xx no_content) by (unfold is_2xx; simpl; lia).
  assert (H3 : status_code no_content = 204 \/ content no_content = ""
               \/ is_Some (json no_content)) by (left; reflexivity).
  split; [by repeat split|].
  split; [|reflexivity].
  exact (proj1 (delete_returns_True (answering no_content) invoices0 42
                  world0 no_content H1 H2 H3)).
Defined.

(** X10. [get_invoice] hands one GET request for [/invoices/{id}.json] to
    the session, with the token as its only query parameter, and when the
    response is in 200..299, is no 204 and has a body that decodes, it
    returns what [InvoiceDTO.model_validate] makes of the decoded body,
    taken without an envelope. *)
Theorem get_invoice_validates_body session self invoice_id w r v :
  session (read_request (client self) "GET" (item_endpoint invoice_id))
    = Responded r ->
  is_2xx r ->
  status_code r <> 204 ->
  content r <> "" ->
  json r = Some v ->
  fst (get_invoice session self invoice_id w) = InvoiceDTO.model_validate v
  /\ wire (snd (get_invoice session self invoice_id w))
     = wire w ++ [read_request (client self) "GET" (item_endpoint invoice_id)].
Proof.
  intros Hr Hs H204 Hc Hj.
  unfold get_invoice.
  change (call_make_request session (client self) "GET"
            ("/invoices/" +:+ pretty invoice_id +:+ ".json") [])
    with (_make_request session (client self) "GET"
            (item_endpoint invoice_id) None None).
  split.
  - apply then_validate_fst.
    rewrite <- (sent_read_request (client self) "GET"
                  (item_endpoint invoice_id) w) in Hr by auto.
    destruct (_make_request_responded session (client self) "GET"
                (item_endpoint invoice_id) None None w r I I Hr)
      as (w' & ->).
    unfold handle_response. rewrite (inside_2xx _ Hs).
    apply Z.eqb_neq in H204. apply str_truthy_true in Hc.
    by rewrite H204, Hc, Hj.
  - rewrite then_validate_wire, _make_request_wire by exact I.
    by rewrite sent_read_request by auto.
Qed.

Lemma get_invoice_validates_body_witness :
  (answering (ok_json (VDict (InvoiceDTO.model_dump invoice0)))
     (read_request (client invoices0) "GET" (item_endpoint 7))
   = Responded (ok_json (VDict (InvoiceDTO.model_dump invoice0)))
   /\ is_2xx (ok_json (VDict (InvoiceDTO.model_dump invoice0)))
   /\ status_code (ok_json (VDict (InvoiceDTO.model_dump invoice0))) <> 204
   /\ content (ok_json (VDict (InvoiceDTO.model_dump invoice0))) <> ""
   /\ json (ok_json (VDict (InvoiceDTO.model_dump invoice0)))
      = Some (VDict (InvoiceDTO.model_dump invoice0)))
  /\ fst (get_invoice
            (answering (ok_json (VDict (InvoiceDTO.model_dump invoice0))))
            invoices0 7 world0)
     = Return invoice0.
Proof.
  set (r := ok_json (VDict (InvoiceDTO.model_dump invoice0))).
  assert (H1 : answering r
                 (read_request (client invoices0) "GET" (item_endpoint 7))
               = Responded r) by reflexivity.
  assert (H2 : is_2xx r) by (unfold is_2xx; simpl; lia).
  assert (H3 : status_code r <> 204) by (simpl; lia).
  assert (H4 : content r <> "") by discriminate.
  assert (H5 : json r = Some (VDict (InvoiceDTO.model_dump invoice0)))
    by reflexivity.
  split; [by repeat split|].
  rewrite (proj1 (get_invoice_validates_body (answering r) invoices0 7 world0
                    r _ H1 H2 H3 H4 H5)).
  vm_compute. reflexivity.
Defined.

(** X11. When the response to [get_invoice] is in 200..299 and is a 204 or
    has an empty body, the dispatcher returns [None] and the validation of
    [None] fails: the call raises a validation error of pydantic, not a
    document and not an error of the taxonomy. *)
Theorem get_invoice_without_body_fails session self invoice_id w r :
  session (read_request (client self) "GET" (item_endpoint invoice_id))
    = Responded r ->
  is_2xx r ->
  status_code r = 204 \/ content r = "" ->
  validation_failure (fst (get_invoice session self invoice_id w)).
Proof.
  intros Hr Hs Hb.
  unfold get_invoice.
  change (call_make_request session (client self) "GET"
            ("/invoices/" +:+ pretty invoice_id +:+ ".json") [])
    with (_make_request session (client self) "GET"
            (item_endpoint invoice_id) None None).
  rewrite (then_validate_fst _ _ w VNone).
  - by do 2 eexists.
  - rewrite <- (sent_read_request (client self) "GET"
                  (item_endpoint invoice_id) w) in Hr by auto.
    destruct (_make_request_responded session (client self) "GET"
                (item_endpoint invoice_id) None None w r I I Hr)
      as (w' & ->).
    unfold handle_response. rewrite (inside_2xx _ Hs).
    destruct Hb as [-> | ->]; [reflexivity|].
    simpl. by rewrite orb_true_r.
Qed.

Lemma get_invoice_without_body_fails_witness :
  (answering no_content
     (read_request (client invoices0) "GET" (item_endpoint 7))
   = Responded no_content
   /\ is_2xx no_content
   /\ (status_code no_content = 204 \/ content no_content = ""))
  /\ validation_failure
       (fst (get_invoice (answering no_content) invoices0 7 world0)).
Proof.
  assert (H1 : answering no_content
                 (read_request (client invoices0) "GET" (item_endpoint 7))
               = Responded no_content) by reflexivity.
  assert (H2 : is_2xx no_content) by (unfold is_2xx; simpl; lia).
  assert (H3 : status_code no_content = 204 \/ content no_content = "")
    by (left; reflexivity).
  split; [by repeat split|].
  exact (get_invoice_without_body_fails (answering no_content) invoices0 7
           world0 no_content H1 H2 H3).
Defined.

(** X12. Whatever the document and whatever comes back, [create_invoice]
    hands one POST request for the collection endpoint to the session: its
    body has the dump of the document under ['invoice'] and the token under
    ['api_token'] and nothing else, and it has no query parameter. *)
Theorem create_invoice_request session self d w :
  wire (snd (create_invoice session self d w))
  = wire w ++ [write_request (client self) "POST" (endpoint_base self)
                 (InvoiceDTO.model_dump d)].
Proof.
  unfold create_invoice. unfold bind at 1, alloc.
  set (l := fresh (dom (heap w))).
  set (w1 := {| heap := <[l := {[ "invoice" := VDict (InvoiceDTO.model_dump d) ]}]>
                          (heap w);
                wire := wire w |}).
  change (call_make_request session (client self) "POST"
            (endpoint_base self) [("json_data", Some l)])
    with (_make_request session (client self) "POST"
            (endpoint_base self) None (Some l)).
  assert (Hl : heap w1 !! l
               = Some {[ "invoice" := VDict (InvoiceDTO.model_dump d) ]})
    by apply lookup_insert_eq.
  rewrite then_validate_wire, _make_request_wire; [|exact I|by eexists].
  by rewrite (sent_write_request _ _ _ _ _ _ (or_introl eq_refl) Hl).
Qed.

(** X13. [update_invoice] with a raw mapping sends the mapping as it is
    under ['invoice'] in a PUT request for [/invoices/{id}.json], with the
    token beside it: the mapping is not validated, whatever it holds, and
    the caller's dictionary is unchanged after the call. *)
Theorem update_invoice_raw_request session self invoice_id l raw w :
  heap w !! l = Some raw ->
  wire (snd (update_invoice session self invoice_id (inr l) w))
  = wire w ++ [write_request (client self) "PUT" (item_endpoint invoice_id)
                 raw]
  /\ heap (snd (update_invoice session self invoice_id (inr l) w)) !! l
     = Some raw.
Proof.
  intros Hraw.
  set (l1 := fresh (dom (heap w))).
  set (w1 := {| heap := <[l1 := {[ "invoice" := VDict raw ]}]> (heap w);
                wire := wire w |}).
  assert (Hrun :
    update_invoice session self invoice_id (inr l) w
    = (response_data <- _make_request session (client self) "PUT"
                          (item_endpoint invoice_id) None (Some l1);;
       lift (InvoiceDTO.model_validate response_data)) w1).
  { unfold update_invoice. unfold bind at 1. unfold bind at 1, load, alloc.
    simpl fst. simpl snd. rewrite Hraw. reflexivity. }
  rewrite Hrun. clear Hrun.
  assert (Hl1 : heap w1 !! l1 = Some {[ "invoice" := VDict raw ]})
    by apply lookup_insert_eq.
  assert (Hl : heap w1 !! l = Some raw).
  { unfold w1; simpl. rewrite lookup_insert_ne; [done|].
    intros E. pose proof (fresh_not_allocated (heap w)) as Hf.
    fold l1 in Hf. rewrite E in Hf. congruence. }
  split.
  - rewrite then_validate_wire, _make_request_wire; [|exact I|by eexists].
    by rewrite (sent_write_request _ _ _ _ _ _ (or_intror eq_refl) Hl1).
  - unfold bind, lift.
    pose proof (_make_request_heap session (client self) "PUT"
                  (item_endpoint invoice_id) None (Some l1) w1 l raw I
                  ltac:(by eexists) Hl) as Hh.
    destruct (_make_request session (client self) "PUT"
                (item_endpoint invoice_id) None (Some l1) w1)
      as [[v|e] w']; exact Hh.
Qed.

Lemma update_invoice_raw_request_witness :
  heap world2 !! 1%positive = Some raw_update
  /\ wire (snd (update_invoice (answering no_content) invoices0 7
                  (inr 1%positive) world2))
     = [write_request (client invoices0) "PUT" (item_endpoint 7) raw_update]
  /\ raw_update !! "positions" = Some (VList []).
Proof.
  assert (H : heap world2 !! 1%positive = Some raw_update) by reflexivity.
  split; [exact H|]. split; [|reflexivity].
  exact (proj1 (update_invoice_raw_request (answering no_content) invoices0 7
                  1%positive raw_update world2 H)).
Defined.

(** X14. [update_invoice] with a full document sends the dump of the
    document under ['invoice'] in a PUT request for [/invoices/{id}.json],
    with the token beside it and no query parameter, whatever comes back. *)
Theorem update_invoice_full_request session self invoice_id d w :
  wire (snd (update_invoice session self invoice_id (inl d) w))
  = wire w ++ [write_request (client self) "PUT" (item_endpoint invoice_id)
                 (InvoiceDTO.model_dump d)].
Proof.
  unfold update_invoice. unfold bind at 1, alloc.
  set (l := fresh (dom (heap w))).
  set (w1 := {| heap := <[l := {[ "invoice" := VDict (InvoiceDTO.model_dump d) ]}]>
                          (heap w);
                wire := wire w |}).
  change (call_make_request session (client self) "PUT"
            ("/invoices/" +:+ pretty invoice_id +:+ ".json")
            [("json_data", Some l)])
    with (_make_request session (client self) "PUT"
            (item_endpoint invoice_id) None (Some l)).
  assert (Hl : heap w1 !! l
               = Some {[ "invoice" := VDict (InvoiceDTO.model_dump d) ]})
    by apply lookup_insert_eq.
  rewrite then_validate_wire, _make_request_wire; [|exact I|by eexists].
  by rewrite (sent_write_request _ _ _ _ _ _ (or_intror eq_refl) Hl).
Qed.

(** ** Further properties of the document model *)

Lemma obind_Return {A B} (o : outcome A) (k : A -> outcome B) (b : B) :
  obind o k = Return b -> exists a, o = Return a /\ k a = Return b.
Proof. destruct o as [a|e]; simpl; [eauto|discriminate]. Qed.

(** The fields that a successful constructor has validated, one after the
    other. *)
Ltac validated H :=
  repeat (let a := fresh "a" in
          let E := fresh "E" in
          apply obind_Return in H as (a & E & H)).

Lemma constraint_Return ok name msg u :
  constraint ok name msg = Return u -> ok = true.
Proof. unfold constraint. by destruct ok. Qed.

Lemma required_literal allowed name kw s :
  required (as_literal allowed) name kw = Return s ->
  str_in s allowed = true.
Proof.
  unfold required, as_literal.
  destruct (kw !! name) as [[]|]; try discriminate.
  destruct (str_in _ allowed) eqn:E; [|discriminate]. by intros [= <-].
Qed.

Lemma optional_absent {A} (f : pyval -> option A) dflt name kw x :
  optional f dflt name kw = Return x -> kw !! name = None -> x = dflt.
Proof. unfold optional. intros H E. rewrite E in H. by injection H. Qed.

Lemma optional_given_None {A} (f : pyval -> option A) dflt name kw x :
  optional f dflt name kw = Return x -> kw !! name = Some VNone -> x = None.
Proof. unfold optional. intros H E. rewrite E in H. by injection H. Qed.

(** A position that the constructor returns has a quantity above 0. *)
Lemma position_init_valid (kw : gmap string pyval) (p : InvoicePositionDTO.t) :
  InvoicePositionDTO.init kw = Return p -> InvoicePositionDTO.valid p = true.
Proof.
  unfold InvoicePositionDTO.init. intros H. validated H.
  injection H as <-. unfold InvoicePositionDTO.valid; simpl.
  match goal with
  | E : constraint _ _ _ = Return _ |- _ => exact (constraint_Return _ _ _ _ E)
  end.
Qed.

Lemma as_position_valid (v : pyval) (p : InvoicePositionDTO.t) :
  as_position v = Some p -> InvoicePositionDTO.valid p = true.
Proof.
  unfold as_position. destruct v; try discriminate.
  destruct (InvoicePositionDTO.init m) as [p'|] eqn:E; [|discriminate].
  intros [= <-]. by eapply position_init_valid.
Qed.

Lemma positions_valid name kw (ps : list InvoicePositionDTO.t) :
  required (as_list as_position) name kw = Return ps ->
  forallb InvoicePositionDTO.valid ps = true.
Proof.
  unfold required, as_list.
  destruct (kw !! name) as [[]|]; try discriminate.
  destruct (mapM as_position l) as [ps'|] eqn:E; [|discriminate].
  intros [= <-]. apply mapM_Some_1 in E.
  induction E as [|v p l ps Hv _ IH]; [done|].
  simpl. by rewrite (as_position_valid _ _ Hv), IH.
Qed.

(** X15. A document that the constructor or [model_validate] returns keeps
    the constraints of the class: its [kind] is one of the seven document
    kinds, it has at least one position, and every position has a quantity
    above 0. *)
Theorem constructed_invoice_valid (kw : gmap string pyval) (d : InvoiceDTO.t) :
  InvoiceDTO.init kw = Return d ->
  InvoiceDTO.valid d = true
  /\ InvoiceDTO.positions d <> []
  /\ InvoiceDTO.model_validate (VDict kw) = Return d.
Proof.
  unfold InvoiceDTO.model_validate. intros H.
  split; [|split; [|exact H]];
    unfold InvoiceDTO.init in H; validated H; injection H as <-.
  - unfold InvoiceDTO.valid.
    cbn [InvoiceDTO.kind InvoiceDTO.positions].
    repeat match goal with
    | E : required (as_literal _) _ _ = Return _ |- _ =>
        rewrite (required_literal _ _ _ _ E); clear E
    | E : constraint _ _ _ = Return _ |- _ =>
        rewrite (constraint_Return _ _ _ _ E); clear E
    | E : required (as_list as_position) _ _ = Return _ |- _ =>
        rewrite (positions_valid _ _ _ E); clear E
    end.
    reflexivity.
  - simpl.
    match goal with
    | E : constraint _ _ _ = Return _ |- _ =>
        apply constraint_Return in E; intros ->; discriminate E
    end.
Qed.

Lemma constructed_invoice_valid_witness :
  InvoiceDTO.init invoice_kw_no_method = Return invoice_no_method
  /\ InvoiceDTO.valid invoice_no_method = true.
Proof.
  assert (H : InvoiceDTO.init invoice_kw_no_method = Return invoice_no_method)
    by (vm_compute; reflexivity).
  split; [exact H|].
  exact (proj1 (constructed_invoice_valid _ _ H)).
Defined.



(** X17. The constructor refuses keyword arguments that lack one of the four
    fields declared without a default ([kind], [sell_date], [issue_date],
    [positions]), whatever the other arguments are. *)
Theorem missing_required_field_refused (kw : gmap string pyval)
    (name : string) :
  str_in name InvoiceDTO_required = true ->
  kw !! name = None ->
  validation_failure (InvoiceDTO.init kw).
Proof.
  intros Hn Hk.
  assert (Hcases : name = "kind" \/ name = "sell_date"
                   \/ name = "issue_date" \/ name = "positions").
  { unfold str_in, InvoiceDTO_required in Hn. simpl in Hn.
    repeat (apply orb_true_iff in Hn as [Hn | Hn];
            [apply String.eqb_eq in Hn; auto|]);
      try discriminate; auto 10. }
  unfold InvoiceDTO.init.
  destruct Hcases as [-> | [-> | [-> | ->]]].
  - unfold required at 1. rewrite Hk. by do 2 eexists.
  - do 1 next_field. unfold required at 1. rewrite Hk. by do 2 eexists.
  - do 2 next_field. unfold required at 1. rewrite Hk. by do 2 eexists.
  - do 10 next_field. unfold required at 1. rewrite Hk. by do 2 eexists.
Qed.

Lemma missing_required_field_refused_witness :
  (str_in "kind" InvoiceDTO_required = true
   /\ ({[ "invoice" := VDict (InvoiceDTO.model_dump invoice0) ]}
         : gmap string pyval) !! "kind" = None)
  /\ validation_failure
       (InvoiceDTO.model_validate
          (VDict {[ "invoice" := VDict (InvoiceDTO.model_dump invoice0) ]})).
Proof.
  assert (H1 : str_in "kind" InvoiceDTO_required = true) by reflexivity.
  assert (H2 : ({[ "invoice" := VDict (InvoiceDTO.model_dump invoice0) ]}
                  : gmap string pyval) !! "kind" = None) by reflexivity.
  split; [by split|].
  exact (missing_required_field_refused _ _ H1 H2).
Defined.

(** X18. A key that is no field of [InvoiceDTO] is ignored: with or without
    it the constructor, and so [model_validate], gives the same result. *)
Theorem extra_keys_ignored (kw : gmap string pyval) (k : string) (v : pyval) :
  str_in k InvoiceDTO_fields = false ->
  InvoiceDTO.init (<[k := v]> kw) = InvoiceDTO.init kw
  /\ InvoiceDTO.model_validate (VDict (<[k := v]> kw))
     = InvoiceDTO.model_validate (VDict kw).
Proof.
  intros Hk.
  assert (H : InvoiceDTO.init (<[k := v]> kw) = InvoiceDTO.init kw).
  { unfold InvoiceDTO.init, required, optional.
    rewrite !lookup_insert_ne
      by (intros E; rewrite E in Hk; vm_compute in Hk; discriminate Hk).
    reflexivity. }
  split; [exact H|]. exact H.
Qed.

Lemma extra_keys_ignored_witness :
  str_in "view_url" InvoiceDTO_fields = false
  /\ InvoiceDTO.model_validate
       (VDict (<["view_url" := VStr "https://firma.fakturownia.pl/i/1"]>
                 (InvoiceDTO.model_dump invoice0)))
     = Return invoice0.
Proof.
  assert (H : str_in "view_url" InvoiceDTO_fields = false) by reflexivity.
  split; [exact H|].
  rewrite (proj2 (extra_keys_ignored (InvoiceDTO.model_dump invoice0)
                    "view_url" (VStr "https://firma.fakturownia.pl/i/1") H)).
  vm_compute. reflexivity.
Defined.

(** X19. In a document that the constructor returns, [payment_method] is
    "Przelew" when the keyword arguments do not give it and [None] when they
    give it as [None]. *)
Theorem payment_method_default (kw : gmap string pyval) (d : InvoiceDTO.t) :
  InvoiceDTO.init kw = Return d ->
  (kw !! "payment_method" = None ->
   InvoiceDTO.payment_method d = Some "Przelew")
  /\ (kw !! "payment_method" = Some VNone ->
      InvoiceDTO.payment_method d = None).
Proof.
  unfold InvoiceDTO.init. intros H. validated H. injection H as <-. simpl.
  match goal with
  | E : optional as_str (Some "Przelew") _ _ = Return _ |- _ =>
      split; intros Hk;
      [exact (optional_absent _ _ _ _ _ E Hk)
      |exact (optional_given_None _ _ _ _ _ E Hk)]
  end.
Qed.

Lemma payment_method_default_witness :
  (InvoiceDTO.init invoice_kw_plain
     = Return (echoed_invoice invoice_no_method)
   /\ invoice_kw_plain !! "payment_method" = None)
  /\ InvoiceDTO.payment_method (echoed_invoice invoice_no_method)
     = Some "Przelew".
Proof.
  assert (H1 : InvoiceDTO.init invoice_kw_plain
               = Return (echoed_invoice invoice_no_method))
    by (vm_compute; reflexivity).
  assert (H2 : invoice_kw_plain !! "payment_method" = None)
    by reflexivity.
  split; [by split|].
  exact (proj1 (payment_method_default _ _ H1) H2).
Defined.

Lemma dump_dict_no_None (es : list (string * option pyval)) (k : string) :
  Forall (fun e => e.2 <> Some VNone) es ->
  dump_dict es !! k <> Some VNone.
Proof.
  induction 1 as [|[k' ov] es Hov _ IH]; simpl; [by rewrite lookup_empty|].
  fold (dump_dict es). destruct ov as [v|]; [|exact IH].
  destruct (decide (k' = k)) as [->|Hne].
  - rewrite lookup_insert_eq. simpl in Hov. congruence.
  - by rewrite lookup_insert_ne.
Qed.

Lemma dump_dict_keys (es : list (string * option pyval)) (k : string) :
  is_Some (dump_dict es !! k) -> str_in k es.*1 = true.
Proof.
  induction es as [|[k' ov] es IH]; simpl.
  - rewrite lookup_empty. by intros [? ?].
  - fold (dump_dict es). unfold str_in; simpl.
    destruct (String.eqb_spec k k') as [->|Hne]; [done|].
    intros H. apply IH.
    destruct ov; [by rewrite lookup_insert_ne in H|exact H].
Qed.

(** X20. The dump of a document has no key that is not a field of the class
    (so none named ['api_token']) and no value that is [None], and it always
    has the four required fields, with the values of the document. *)
Theorem dump_shape (d : InvoiceDTO.t) :
  (forall k, InvoiceDTO.model_dump d !! k <> Some VNone)
  /\ (forall k, is_Some (InvoiceDTO.model_dump d !! k) ->
                str_in k InvoiceDTO_fields = true)
  /\ InvoiceDTO.model_dump d !! "api_token" = None
  /\ InvoiceDTO.model_dump d !! "kind" = Some (VStr (InvoiceDTO.kind d))
  /\ InvoiceDTO.model_dump d !! "sell_date"
     = Some (VDate (InvoiceDTO.sell_date d))
  /\ InvoiceDTO.model_dump d !! "issue_date"
     = Some (VDate (InvoiceDTO.issue_date d))
  /\ InvoiceDTO.model_dump d !! "positions"
     = Some (VList ((fun p => VDict (InvoicePositionDTO.model_dump p))
                      <$> InvoiceDTO.positions d)).
Proof.
  assert (Hkeys : forall k, is_Some (InvoiceDTO.model_dump d !! k) ->
                            str_in k InvoiceDTO_fields = true).
  { intros k Hk. by apply dump_dict_keys in Hk. }
  split; [|split; [exact Hkeys|split]].
  - intros k. apply dump_dict_no_None.
    repeat (apply Forall_cons; split;
            [simpl;
             try match goal with
                 | |- _ <$> ?x <> _ => destruct x
                 end; discriminate|]).
    apply Forall_nil_2.
  - destruct (InvoiceDTO.model_dump d !! "api_token") eqn:E; [|done].
    assert (Hs : is_Some (InvoiceDTO.model_dump d !! "api_token"))
      by (by eexists).
    apply Hkeys in Hs. discriminate Hs.
  - unfold InvoiceDTO.model_dump.
    by rewrite !dump_dict_lookup by dump_keys.
Qed.

Lemma echoed_correction_again (c : CorrectionAttributesDTO.t) :
  echoed_correction (echoed_correction c) = echoed_correction c.
Proof.
  destruct c as [n q t x k]; unfold echoed_correction; simpl. by destruct x.
Qed.

Lemma echoed_position_again (p : InvoicePositionDTO.t) :
  echoed_position (echoed_position p) = echoed_position p.
Proof.
  destruct p as [i n q t x k b a]; unfold echoed_position; simpl.
  destruct b, a; simpl; by rewrite ?echoed_correction_again.
Qed.

Lemma echoed_invoice_again (d : InvoiceDTO.t) :
  echoed_invoice (echoed_invoice d) = echoed_invoice d.
Proof.
  destruct d; unfold echoed_invoice; simpl. f_equal.
  - by destruct payment_method.
  - rewrite <- list_fmap_compose. apply list_fmap_ext.
    intros i p _. apply echoed_position_again.
Qed.

Lemma echoed_positions_valid (ps : list InvoicePositionDTO.t) :
  forallb InvoicePositionDTO.valid (echoed_position <$> ps)
  = forallb InvoicePositionDTO.valid ps.
Proof.
  induction ps as [|p ps IH]; [done|].
  rewrite fmap_cons. cbn [forallb]. by rewrite IH.
Qed.

Lemma echoed_invoice_valid (d : InvoiceDTO.t) :
  InvoiceDTO.valid (echoed_invoice d) = InvoiceDTO.valid d.
Proof.
  unfold InvoiceDTO.valid, echoed_invoice.
  cbn [InvoiceDTO.kind InvoiceDTO.positions].
  by rewrite length_fmap, echoed_positions_valid.
Qed.

(** X21. What comes back from one dump and validation of a valid document is
    valid and comes back unchanged from the next: the defaults that replace
    the left-out values are replaced once. *)
Theorem second_echo_is_stable (d : InvoiceDTO.t) :
  InvoiceDTO.valid d = true ->
  InvoiceDTO.valid (echoed_invoice d) = true
  /\ InvoiceDTO.model_validate
       (VDict (InvoiceDTO.model_dump (echoed_invoice d)))
     = Return (echoed_invoice d).
Proof.
  intros Hv.
  assert (Hv' : InvoiceDTO.valid (echoed_invoice d) = true)
    by (by rewrite echoed_invoice_valid).
  split; [exact Hv'|].
  by rewrite (invoice_echo _ Hv'), echoed_invoice_again.
Qed.

Lemma second_echo_is_stable_witness :
  InvoiceDTO.valid invoice_with_snapshot = true
  /\ InvoiceDTO.model_validate
       (VDict (InvoiceDTO.model_dump (echoed_invoice invoice_with_snapshot)))
     = Return (echoed_invoice invoice_with_snapshot).
Proof.
  assert (H : InvoiceDTO.valid invoice_with_snapshot = true) by reflexivity.
  split; [exact H|].
  exact (proj2 (second_echo_is_stable invoice_with_snapshot H)).
Defined.

Lemma nonpositive_quantity_refused_witness :
  (correction_position_kw !! "quantity" = Some (of_number (NInt (-1)))
   /\ le0 (NInt (-1)) = true)
  /\ validation_failure (InvoicePositionDTO.init correction_position_kw).
Proof.
  assert (H1 : correction_position_kw !! "quantity"
               = Some (of_number (NInt (-1)))) by reflexivity.
  assert (H2 : le0 (NInt (-1)) = true) by reflexivity.
  split; [by split|].
  exact (nonpositive_quantity_refused _ _ H1 H2).
Defined.

(** X24. The query parameters that [list_invoices] builds, which stay in the
    store, hold every extra keyword argument as given, and beside them
    [per_page] as the smaller of the argument and 100, [period] and [page]
    as given, [date_from] as the ISO text of the date when one is given,
    and [include_positions] as the string "true" when the flag is set and
    not at all otherwise. *)
Theorem list_invoices_builds_params session self period date_from date_to
    page per_page include_positions kwargs w :
  exists params,
    heap (snd (list_invoices session self period date_from date_to page
                 per_page include_positions kwargs w))
      !! fresh (dom (heap w)) = Some params
    /\ (forall k v, kwargs !! k = Some v -> params !! k = Some v)
    /\ (kwargs !! "per_page" = None ->
        params !! "per_page" = Some (VInt (Z.min per_page 100)))
    /\ (kwargs !! "period" = None -> params !! "period" = Some (VStr period))
    /\ (kwargs !! "page" = None -> params !! "page" = Some (VInt page))
    /\ (kwargs !! "date_from" = None ->
        params !! "date_from" = (fun d => VStr (isoformat d)) <$> date_from)
    /\ (kwargs !! "include_positions" = None ->
        params !! "include_positions"
        = if include_positions then Some (VStr "true") else None).
Proof.
  unfold list_invoices, bind, alloc, update, setitem, ret.
  destruct date_from, date_to, include_positions; simpl;
    simplify_map_eq; eexists; (split; [reflexivity|]);
    (split; [intros k v Hk; by apply lookup_union_Some_l|]);
    repeat split; intros Hk; rewrite lookup_union_r by done;
    by simplify_map_eq.
Qed.

Lemma list_invoices_builds_params_witness :
  exists params,
    heap (snd (list_invoices (answering two_invoices) invoices0 "this_month"
                 (Some day0) None 2 500 true {[ "number" := VStr "FV 1" ]}
                 world0))
      !! 1%positive = Some params
    /\ params !! "per_page" = Some (VInt 100)
    /\ params !! "number" = Some (VStr "FV 1")
    /\ params !! "date_from" = Some (VStr "2024-01-15")
    /\ params !! "include_positions" = Some (VStr "true").
Proof.
  destruct (list_invoices_builds_params (answering two_invoices) invoices0
              "this_month" (Some day0) None 2 500 true
              {[ "number" := VStr "FV 1" ]} world0)
    as (params & Hp & Hkw & Hpp & _ & _ & Hdf & Hip).
  exists params. split; [exact Hp|].
  split; [by apply Hpp|]. split; [by apply Hkw|].
  split; [by apply Hdf|by apply Hip].
Defined.
